(** * Topology indexing and deduplication engine of openforcefield

    A shallow embedding of [openforcefield/topology/topology.py]:
    the key-transforming dictionaries ([ValenceDict], [ImproperDict]),
    the [TopologyMolecule] and [Topology*] views, and the [Topology]
    container with its global lookups, counters, chemical-environment
    matching, import from OpenMM and constraint bookkeeping.

    Python integers are unbounded and are modelled by [Z]; tuples and lists
    by [list]; a call that may raise returns a [result]. *)

From stdpp Require Import gmap strings list fin_maps sorting.
From Stdlib Require Import ZArith Lia.

Local Open Scope Z_scope.

(** ** Python outcomes *)

(** The texts passed to [raise Exception(...)] in the module. *)
Inductive message : Type :=
| already_constrained_with_distance
| already_constrained_with_unspecified_distance
| indistinguishable_graphs
| no_match_found.

Inductive exn : Type :=
| AssertionError
| IndexError
| KeyError
| TypeError
| ValueError
| Exception (msg : message).

Inductive result (A : Type) : Type :=
| Ok (a : A)
| Raise (e : exn).
Arguments Ok {A} a.
Arguments Raise {A} e.

Global Instance result_ret : MRet result := λ A a, Ok a.
Global Instance result_bind : MBind result := λ A B f r,
  match r with
  | Ok a => f a
  | Raise e => Raise e
  end.

(** [l[i]] on a Python sequence: a negative index counts from the end, an
    index outside the sequence raises [IndexError]. *)
Definition py_getitem {A : Type} (l : list A) (i : Z) : result A :=
  let n := Z.of_nat (length l) in
  let j := if i <? 0 then i + n else i in
  if (j <? 0) || (n <=? j) then Raise IndexError
  else match l !! Z.to_nat j with
       | Some x => Ok x
       | None => Raise IndexError
       end.

(** [list.sort()] on integers (insertion into an ascending list). *)
Fixpoint sort_insert (x : Z) (l : list Z) : list Z :=
  match l with
  | [] => [x]
  | y :: l' => if x <=? y then x :: y :: l' else y :: sort_insert x l'
  end.

Definition py_sort (l : list Z) : list Z := foldr sort_insert [] l.

(** ** [collections.OrderedDict]

    An insertion-ordered dictionary: a list of entries with pairwise
    different keys. [keq] is the key equality of the key type. *)
Section OrderedDict.
Context {K V : Type} (keq : K → K → bool).

Fixpoint od_get (d : list (K * V)) (k : K) : option V :=
  match d with
  | [] => None
  | (k', v) :: d' => if keq k' k then Some v else od_get d' k
  end.

(** [d[k] = v]: the value of an existing key is replaced in place (the
    dictionary keeps the key object it already has), a new key goes to
    the end. *)
Fixpoint od_set (d : list (K * V)) (k : K) (v : V) : list (K * V) :=
  match d with
  | [] => [(k, v)]
  | (k', v') :: d' =>
      if keq k' k then (k', v) :: d' else (k', v') :: od_set d' k v
  end.

Fixpoint od_del (d : list (K * V)) (k : K) : list (K * V) :=
  match d with
  | [] => []
  | (k', v') :: d' => if keq k' k then d' else (k', v') :: od_del d' k
  end.

(** [d[k].append(x)]-style in-place change of the value stored at [k]. *)
Fixpoint od_alter (f : V → V) (d : list (K * V)) (k : K) : list (K * V) :=
  match d with
  | [] => []
  | (k', v') :: d' =>
      if keq k' k then (k', f v') :: d' else (k', v') :: od_alter f d' k
  end.

Definition od_keys (d : list (K * V)) : list K := fst <$> d.
End OrderedDict.

(** ** [_TransformedDict], [ValenceDict], [ImproperDict] *)

Definition tuple_eqb (k k' : list Z) : bool := bool_decide (k = k').

Module _TransformedDict.
Section Dict.
Context {V : Type}.
(** The [__keytransform__] of the subclass. *)
Variable __keytransform__ : list Z → result (list Z).

(** [self.store] *)
Definition store : Type := list (list Z * V).

Definition __getitem__ (self : store) (key : list Z) : result V :=
  k ← __keytransform__ key;
  match od_get tuple_eqb self k with
  | Some v => Ok v
  | None => Raise KeyError
  end.

Definition __setitem__ (self : store) (key : list Z) (value : V)
  : result store :=
  k ← __keytransform__ key;
  Ok (od_set tuple_eqb self k value).

Definition __delitem__ (self : store) (key : list Z) : result store :=
  k ← __keytransform__ key;
  match od_get tuple_eqb self k with
  | Some _ => Ok (od_del tuple_eqb self k)
  | None => Raise KeyError
  end.

Definition __iter__ (self : store) : list (list Z) := od_keys self.

Definition __len__ (self : store) : Z := Z.of_nat (length self).
End Dict.
End _TransformedDict.

Module ValenceDict.
(** Reverse tuple if first element is larger than last element. *)
Definition __keytransform__ (key : list Z) : result (list Z) :=
  first ← py_getitem key 0;
  last ← py_getitem key (-1);
  if first >? last then Ok (reverse key) else Ok key.

Definition __getitem__ {V} := @_TransformedDict.__getitem__ V __keytransform__.
Definition __setitem__ {V} := @_TransformedDict.__setitem__ V __keytransform__.
Definition __delitem__ {V} := @_TransformedDict.__delitem__ V __keytransform__.
End ValenceDict.

Module ImproperDict.
(** Reorder tuple in numerical order except for element[1] which is the
    central atom; it retains its position. *)
Definition __keytransform__ (key : list Z) : result (list Z) :=
  k0 ← py_getitem key 0;
  k2 ← py_getitem key 2;
  k3 ← py_getitem key 3;
  let connectedatoms := py_sort [k0; k2; k3] in
  c0 ← py_getitem connectedatoms 0;
  k1 ← py_getitem key 1;
  c1 ← py_getitem connectedatoms 1;
  c2 ← py_getitem connectedatoms 2;
  Ok [c0; k1; c1; c2].

Definition __getitem__ {V} := @_TransformedDict.__getitem__ V __keytransform__.
Definition __setitem__ {V} := @_TransformedDict.__setitem__ V __keytransform__.
Definition __delitem__ {V} := @_TransformedDict.__delitem__ V __keytransform__.
End ImproperDict.


(** ** Molecules

    The chemical graph of a single molecule lives in
    [openforcefield/topology/molecule.py] and is consumed here as a
    capability. *)

(** Modelled from the spec: an atom of a reference molecule, of which this
    module reads the atomic number and the local index; the local index of
    an entity is its position within its own reference molecule. *)
Record Atom : Type := {
  atomic_number : Z;
  molecule_atom_index : Z
}.

(** Modelled from the spec: a bond of a reference molecule, with the local
    indices of its two atoms, its order and its own local index. *)
Record Bond : Type := {
  atom1_index : Z;
  atom2_index : Z;
  bond_order : Z;
  molecule_bond_index : Z
}.

(** Modelled from the spec: a virtual site of a reference molecule, with
    the local indices of the atoms it depends on and its own local index. *)
Record VirtualSite : Type := {
  virtual_site_atoms : list Z;
  molecule_virtual_site_index : Z
}.

(** Modelled from the spec: a molecule has a canonical fingerprint
    ([to_smiles]) and ordered atoms, bonds and virtual sites. *)
Record Molecule : Type := {
  to_smiles : string;
  (** atomic number of each atom, in molecule order *)
  atom_table : list Z;
  (** the two atom indices and the order of each bond *)
  bond_table : list (Z * Z * Z);
  (** the atoms each virtual site depends on *)
  virtual_site_table : list (list Z)
}.

Module Molecule.
(** Modelled from the spec: the atoms, bonds and virtual sites in molecule
    order, each knowing its local index, and their counts. *)
Definition atoms (self : Molecule) : list Atom :=
  imap (λ i z, {| atomic_number := z; molecule_atom_index := Z.of_nat i |})
       (atom_table self).

Definition bonds (self : Molecule) : list Bond :=
  imap (λ i b, {| atom1_index := b.1.1; atom2_index := b.1.2;
                  bond_order := b.2; molecule_bond_index := Z.of_nat i |})
       (bond_table self).

Definition virtual_sites (self : Molecule) : list VirtualSite :=
  imap (λ i a, {| virtual_site_atoms := a;
                  molecule_virtual_site_index := Z.of_nat i |})
       (virtual_site_table self).

Definition n_atoms (self : Molecule) : Z := Z.of_nat (length (atoms self)).
Definition n_bonds (self : Molecule) : Z := Z.of_nat (length (bonds self)).
Definition n_virtual_sites (self : Molecule) : Z :=
  Z.of_nat (length (virtual_sites self)).
(** The particles of a molecule are its atoms followed by its virtual sites. *)
Definition n_particles (self : Molecule) : Z :=
  n_atoms self + n_virtual_sites self.

(** Modelled from the spec: two molecules are the same reference molecule
    iff their canonical string representations are equal. This is the key
    equality of the reference-molecule dictionary. *)
Definition eqb (self other : Molecule) : bool :=
  String.eqb (to_smiles self) (to_smiles other).
End Molecule.

(** Modelled from the spec: [FrozenMolecule(molecule)] is an immutable copy
    of the molecule. *)
Definition FrozenMolecule (molecule : Molecule) : Molecule := molecule.

(** ** Objects of the topology *)

(** A [TopologyMolecule] holds its reference molecule; the class defines
    no [__eq__], so [==] on two of them is object identity, modelled by
    [tm_id]. The back-reference [_topology] is passed explicitly to the
    methods that follow it. *)
Record TopologyMolecule : Type := {
  tm_id : nat;
  _reference_molecule : Molecule
}.

Record TopologyAtom : Type := {
  _atom : Atom;
  ta_topology_molecule : TopologyMolecule
}.

Record TopologyBond : Type := {
  _bond : Bond;
  tb_topology_molecule : TopologyMolecule
}.

Record TopologyVirtualSite : Type := {
  _virtual_site : VirtualSite;
  tv_topology_molecule : TopologyMolecule
}.

(** The [distance] argument of a constraint: [True] (distance yet to be
    determined), [False] (constraint to be removed) or a quantity. The
    quantity type belongs to [simtk.unit] and is a parameter. *)
Inductive distance (Quantity : Type) : Type :=
| PyTrue
| PyFalse
| PyQuantity (q : Quantity).
Arguments PyTrue {Quantity}.
Arguments PyFalse {Quantity}.
Arguments PyQuantity {Quantity} q.

(** The storage set up by [Topology._initialize]. [_next_id] is the
    identity the next [TopologyMolecule] object gets. *)
Record Topology (Quantity : Type) : Type := {
  _constrained_atom_pairs : gmap (Z * Z) (distance Quantity);
  _reference_molecule_to_topology_molecules :
    list (Molecule * list TopologyMolecule);
  _topology_molecules : list TopologyMolecule;
  _next_id : nat
}.
Arguments _constrained_atom_pairs {Quantity} _.
Arguments _reference_molecule_to_topology_molecules {Quantity} _.
Arguments _topology_molecules {Quantity} _.
Arguments _next_id {Quantity} _.

(** [x + y] where [x] may be Python's [None]. *)
Definition py_add (x : option Z) (y : Z) : result Z :=
  match x with
  | Some x => Ok (x + y)
  | None => Raise TypeError
  end.

(** ** [TopologyMolecule] *)
Module TopologyMolecule.
Definition eqb (self other : TopologyMolecule) : bool :=
  Nat.eqb (tm_id self) (tm_id other).

Definition reference_molecule (self : TopologyMolecule) : Molecule :=
  _reference_molecule self.

Definition n_atoms (self : TopologyMolecule) : Z :=
  Molecule.n_atoms (_reference_molecule self).
Definition n_bonds (self : TopologyMolecule) : Z :=
  Molecule.n_bonds (_reference_molecule self).
Definition n_particles (self : TopologyMolecule) : Z :=
  Molecule.n_particles (_reference_molecule self).
Definition n_virtual_sites (self : TopologyMolecule) : Z :=
  Molecule.n_virtual_sites (_reference_molecule self).

Definition atom (self : TopologyMolecule) (index : Z) : result TopologyAtom :=
  a ← py_getitem (Molecule.atoms (_reference_molecule self)) index;
  Ok {| _atom := a; ta_topology_molecule := self |}.

Definition atoms (self : TopologyMolecule) : list TopologyAtom :=
  (λ a, {| _atom := a; ta_topology_molecule := self |})
    <$> Molecule.atoms (_reference_molecule self).

Definition bond (self : TopologyMolecule) (index : Z) : result TopologyBond :=
  b ← py_getitem (Molecule.bonds (reference_molecule self)) index;
  Ok {| _bond := b; tb_topology_molecule := self |}.

Definition bonds (self : TopologyMolecule) : list TopologyBond :=
  (λ b, {| _bond := b; tb_topology_molecule := self |})
    <$> Molecule.bonds (_reference_molecule self).

Definition virtual_site (self : TopologyMolecule) (index : Z)
  : result TopologyVirtualSite :=
  v ← py_getitem (Molecule.virtual_sites (reference_molecule self)) index;
  Ok {| _virtual_site := v; tv_topology_molecule := self |}.

Definition virtual_sites (self : TopologyMolecule) : list TopologyVirtualSite :=
  (λ v, {| _virtual_site := v; tv_topology_molecule := self |})
    <$> Molecule.virtual_sites (_reference_molecule self).

(** The loop of the four [*_start_topology_index] properties: walk the
    topology's molecules, adding up [count], until [self] is met. Falling
    off the end of the loop returns [None]. *)
Fixpoint start_topology_index (count : TopologyMolecule → Z)
    (self : TopologyMolecule) (topology_molecules : list TopologyMolecule)
    (start_topology_index_acc : Z) : option Z :=
  match topology_molecules with
  | [] => None
  | topology_molecule :: rest =>
      if eqb self topology_molecule then Some start_topology_index_acc
      else start_topology_index count self rest
             (start_topology_index_acc + count topology_molecule)
  end.

Section WithTopology.
Context {Quantity : Type} (_topology : Topology Quantity).

Definition atom_start_topology_index (self : TopologyMolecule) : option Z :=
  start_topology_index n_atoms self (_topology_molecules _topology) 0.
Definition bond_start_topology_index (self : TopologyMolecule) : option Z :=
  start_topology_index n_bonds self (_topology_molecules _topology) 0.
Definition particle_start_topology_index (self : TopologyMolecule) : option Z :=
  start_topology_index n_particles self (_topology_molecules _topology) 0.
Definition virtual_site_start_topology_index (self : TopologyMolecule)
  : option Z :=
  start_topology_index n_virtual_sites self (_topology_molecules _topology) 0.
End WithTopology.
End TopologyMolecule.

(** ** [TopologyAtom], [TopologyBond], [TopologyVirtualSite] *)
Module TopologyAtom.
Section WithTopology.
Context {Quantity : Type} (_topology : Topology Quantity).

Definition topology_atom_index (self : TopologyAtom) : result Z :=
  py_add (TopologyMolecule.atom_start_topology_index _topology
            (ta_topology_molecule self))
         (molecule_atom_index (_atom self)).
End WithTopology.

Definition molecule (self : TopologyAtom) : Molecule :=
  TopologyMolecule.reference_molecule (ta_topology_molecule self).
End TopologyAtom.

Module TopologyBond.
Section WithTopology.
Context {Quantity : Type} (_topology : Topology Quantity).

Definition topology_bond_index (self : TopologyBond) : result Z :=
  py_add (TopologyMolecule.bond_start_topology_index _topology
            (tb_topology_molecule self))
         (molecule_bond_index (_bond self)).
End WithTopology.

Definition atoms (self : TopologyBond) : result (list TopologyAtom) :=
  mapM (TopologyMolecule.atom (tb_topology_molecule self))
       [atom1_index (_bond self); atom2_index (_bond self)].
End TopologyBond.

Module TopologyVirtualSite.
Section WithTopology.
Context {Quantity : Type} (_topology : Topology Quantity).

Definition topology_virtual_site_index (self : TopologyVirtualSite) : result Z :=
  py_add (TopologyMolecule.virtual_site_start_topology_index _topology
            (tv_topology_molecule self))
         (molecule_virtual_site_index (_virtual_site self)).
End WithTopology.

Definition atoms (self : TopologyVirtualSite) : result (list TopologyAtom) :=
  mapM (TopologyMolecule.atom (tv_topology_molecule self))
       (virtual_site_atoms (_virtual_site self)).
End TopologyVirtualSite.

(** ** Collaborators of [Topology] *)

(** Modelled from the spec: a [ChemicalEnvironment] is an object exposing a
    pattern-rendering capability, [as_smarts]. *)
Record ChemicalEnvironment : Type := { as_smarts : string }.

(** The [query] argument of [chemical_environment_matches]: a [str], a
    [ChemicalEnvironment], or anything else. *)
Inductive query : Type :=
| QueryStr (smarts : string)
| QueryChemicalEnvironment (environment : ChemicalEnvironment)
| QueryOther.

(** A [networkx.Graph] object: its identity, its nodes (index and atomic
    number) and its edges (two indices and the order, if any). *)
Record Graph : Type := {
  graph_id : nat;
  graph_nodes : list (Z * Z);
  graph_edges : list (Z * Z * option Z)
}.

(** [networkx.Graph] defines neither [__eq__] nor [__hash__]: as dictionary
    keys, two graph objects are equal when they are the same object. *)
Definition graph_is (g g' : Graph) : bool := Nat.eqb (graph_id g) (graph_id g').

(** Equality of what two graph objects hold, whichever objects they are. *)
Definition graph_same_content (g g' : Graph) : bool :=
  bool_decide (graph_nodes g = graph_nodes g' ∧ graph_edges g = graph_edges g').

(** Modelled from the spec: [Molecule.to_networkx], of [molecule.py],
    produces an attributed graph (node attribute = atomic number, edge
    attribute = bond order). Every call builds a new graph object, whose
    identity is [id]. *)
Definition to_networkx (self : Molecule) (id : nat) : Graph :=
  {| graph_id := id;
     graph_nodes := (λ a : Atom, (molecule_atom_index a, atomic_number a))
                      <$> Molecule.atoms self;
     graph_edges := (λ b : Bond, (atom1_index b, atom2_index b, Some (bond_order b)))
                      <$> Molecule.bonds self |}.

(** An OpenMM topology as this module reads it: atoms (index and atomic
    number) and bonds (two atom indices and an optional order). *)
Record OpenMMTopology : Type := {
  omm_atoms : list (Z * Z);
  omm_bonds : list (Z * Z * option Z)
}.

(** ** [Topology] *)
Module Topology.
Section Topology.
Context {Quantity : Type}.
Local Abbreviation Topology := (Topology Quantity).

Definition _initialize : Topology :=
  {| _constrained_atom_pairs := ∅;
     _reference_molecule_to_topology_molecules := [];
     _topology_molecules := [];
     _next_id := 0%nat |}.

(** [Topology()] *)
Definition __init__ : Topology := _initialize.

Definition reference_molecules (self : Topology) : list Molecule :=
  od_keys (_reference_molecule_to_topology_molecules self).

Definition n_reference_molecules (self : Topology) : Z :=
  fold_left (λ count _, count + 1) (reference_molecules self) 0.

Definition n_molecules (self : Topology) : Z :=
  Z.of_nat (length (_topology_molecules self)).

Definition topology_molecules (self : Topology) : list TopologyMolecule :=
  _topology_molecules self.

(** The loop of [n_atoms], [n_bonds], [n_particles], [n_virtual_sites]: for
    every key [reference_molecule] of the dictionary, with the list stored
    under it, add (count per molecule) * (number of instances). *)
Definition n_grouped (count : Molecule → Z) (self : Topology) : Z :=
  fold_left
    (λ n entry, n + count entry.1 * Z.of_nat (length entry.2))
    (_reference_molecule_to_topology_molecules self) 0.

Definition n_atoms : Topology → Z := n_grouped Molecule.n_atoms.
Definition n_bonds : Topology → Z := n_grouped Molecule.n_bonds.
Definition n_particles : Topology → Z := n_grouped Molecule.n_particles.
Definition n_virtual_sites : Topology → Z := n_grouped Molecule.n_virtual_sites.

Definition atoms (self : Topology) : list TopologyAtom :=
  concat (TopologyMolecule.atoms <$> _topology_molecules self).
Definition bonds (self : Topology) : list TopologyBond :=
  concat (TopologyMolecule.bonds <$> _topology_molecules self).
Definition virtual_sites (self : Topology) : list TopologyVirtualSite :=
  concat (TopologyMolecule.virtual_sites <$> _topology_molecules self).

(** The loop of [atom], [bond] and [virtual_site]: walk the molecules until
    the running total exceeds the index, then delegate to that molecule
    with the local index. Falling off the end returns [None]. *)
Fixpoint lookup_scan {View : Type} (count : TopologyMolecule → Z)
    (get : TopologyMolecule → Z → result View)
    (topology_molecules : list TopologyMolecule) (topology_index : Z)
    (this_molecule_start_index next_molecule_start_index : Z)
  : result (option View) :=
  match topology_molecules with
  | [] => Ok None
  | topology_molecule :: rest =>
      let next_molecule_start_index :=
        next_molecule_start_index + count topology_molecule in
      if next_molecule_start_index >? topology_index then
        v ← get topology_molecule (topology_index - this_molecule_start_index);
        Ok (Some v)
      else
        lookup_scan count get rest topology_index
          (this_molecule_start_index + count topology_molecule)
          next_molecule_start_index
  end.

Definition atom (self : Topology) (atom_topology_index : Z)
  : result (option TopologyAtom) :=
  if negb ((0 <=? atom_topology_index) && (atom_topology_index <? n_atoms self))
  then Raise AssertionError
  else lookup_scan TopologyMolecule.n_atoms TopologyMolecule.atom
         (_topology_molecules self) atom_topology_index 0 0.

Definition virtual_site (self : Topology) (vsite_topology_index : Z)
  : result (option TopologyVirtualSite) :=
  if negb ((0 <=? vsite_topology_index)
           && (vsite_topology_index <? n_virtual_sites self))
  then Raise AssertionError
  else lookup_scan TopologyMolecule.n_virtual_sites TopologyMolecule.virtual_site
         (_topology_molecules self) vsite_topology_index 0 0.

Definition bond (self : Topology) (bond_topology_index : Z)
  : result (option TopologyBond) :=
  if negb ((0 <=? bond_topology_index) && (bond_topology_index <? n_bonds self))
  then Raise AssertionError
  else lookup_scan TopologyMolecule.n_bonds TopologyMolecule.bond
         (_topology_molecules self) bond_topology_index 0 0.

(** [add_molecule] returns the changed topology and the returned index. *)
Definition add_molecule (self : Topology) (molecule : Molecule)
  : Topology * Z :=
  let mol_smiles := to_smiles molecule in
  let found :=
    find (λ potential_ref_mol, String.eqb mol_smiles (to_smiles potential_ref_mol))
         (od_keys (_reference_molecule_to_topology_molecules self)) in
  let '(reference_molecule, refs) :=
    match found with
    | Some potential_ref_mol =>
        (potential_ref_mol, _reference_molecule_to_topology_molecules self)
    | None =>
        let reference_molecule := FrozenMolecule molecule in
        (reference_molecule,
         od_set Molecule.eqb (_reference_molecule_to_topology_molecules self)
                reference_molecule [])
    end in
  let topology_molecule :=
    {| tm_id := _next_id self; _reference_molecule := reference_molecule |} in
  let topology_molecules := _topology_molecules self ++ [topology_molecule] in
  let refs :=
    od_alter Molecule.eqb
      (λ instances, instances ++ [List.last topology_molecules topology_molecule])
      refs reference_molecule in
  let index := Z.of_nat (length topology_molecules) in
  ({| _constrained_atom_pairs := _constrained_atom_pairs self;
      _reference_molecule_to_topology_molecules := refs;
      _topology_molecules := topology_molecules;
      _next_id := S (_next_id self) |},
   index).

(** [[ topology.add_molecule(molecule) for molecule in molecules ]]: the
    topology after the calls and the list of the returned indices. *)
Fixpoint add_molecules (self : Topology) (molecules : list Molecule)
  : Topology * list Z :=
  match molecules with
  | [] => (self, [])
  | molecule :: rest =>
      let '(self, index) := add_molecule self molecule in
      let '(self, indices) := add_molecules self rest in
      (self, index :: indices)
  end.

Definition from_molecules (molecules : list Molecule) : Topology :=
  fold_left (λ topology molecule, (add_molecule topology molecule).1)
            molecules __init__.

(** *** Chemical-environment matching *)
Section Matching.
(** [ref_mol.chemical_environment_matches(smarts, ...)]: the capability of
    the molecule layer that returns the matching local atom-index tuples. *)
Variable mol_chemical_environment_matches : Molecule → string → list (list Z).

(** The body of the innermost loops: the tuple [match] built for one
    reference match and one instance. An entry is [None] when
    [self.atom] fell off the end of its loop. *)
Definition unroll_match (self : Topology) (topology_molecule : TopologyMolecule)
    (reference_match : list Z) : result (list (option TopologyAtom)) :=
  mapM (λ reference_molecule_atom_index,
          atom_topology_index ←
            py_add (TopologyMolecule.atom_start_topology_index self topology_molecule)
                   reference_molecule_atom_index;
          atom self atom_topology_index)
       reference_match.

Definition chemical_environment_matches (self : Topology) (query : query)
  : result (list (list (option TopologyAtom))) :=
  smarts ← match query with
           | QueryStr smarts => Ok smarts
           | QueryChemicalEnvironment environment => Ok (as_smarts environment)
           | QueryOther => Raise ValueError
           end;
  per_ref_mol ←
    mapM (λ entry : Molecule * list TopologyMolecule,
            let ref_mol := entry.1 in
            let refmol_matches := mol_chemical_environment_matches ref_mol smarts in
            per_match ←
              mapM (λ reference_match,
                      mapM (λ topology_molecule,
                              unroll_match self topology_molecule reference_match)
                           entry.2)
                   refmol_matches;
            Ok (concat per_match))
         (_reference_molecule_to_topology_molecules self);
  Ok (concat per_ref_mol).
End Matching.

(** *** Import from OpenMM *)
Section FromOpenMM.
(** The equality Python applies to graph objects used as dictionary keys. *)
Variable graph_eqb : Graph → Graph → bool.
(** [nx.connected_component_subgraphs] *)
Variable connected_component_subgraphs : Graph → list Graph.
(** [nx.is_isomorphic(G1, G2, node_match, edge_match)] with
    [node_match] comparing atomic numbers; the flag tells whether
    [edge_match] compares bond orders ([true]) or is [None]. *)
Variable is_isomorphic : Graph → Graph → bool → bool.

(** The loop "Convert all unique mols to graphs": [graph_to_unq_mol] is
    the dictionary built so far, [next_graph_id] the identity of the next
    graph object. [to_networkx] is called twice per molecule. *)
Fixpoint convert_unique_mols (unique_molecules : list Molecule)
    (graph_to_unq_mol : list (Graph * Molecule)) (next_graph_id : nat)
  : result (list (Graph * Molecule)) :=
  match unique_molecules with
  | [] => Ok graph_to_unq_mol
  | unq_mol :: rest =>
      let unq_graph := to_networkx unq_mol next_graph_id in
      if existsb (λ key, graph_eqb key unq_graph) (od_keys graph_to_unq_mol)
      then Raise (Exception indistinguishable_graphs)
      else convert_unique_mols rest
             (od_set graph_eqb graph_to_unq_mol
                     (to_networkx unq_mol (S next_graph_id)) unq_mol)
             (S (S next_graph_id))
  end.

(** The loop over the connected subgraphs of the OpenMM topology. *)
Fixpoint match_components (topology : Topology)
    (graph_to_unq_mol : list (Graph * Molecule)) (has_bond_orders : bool)
    (components : list Graph) : result Topology :=
  match components with
  | [] => Ok topology
  | omm_mol_G :: rest =>
      match find (λ entry : Graph * Molecule,
                    is_isomorphic entry.1 omm_mol_G has_bond_orders)
                 graph_to_unq_mol with
      | Some entry =>
          match_components (add_molecule topology entry.2).1
            graph_to_unq_mol has_bond_orders rest
      | None => Raise (Exception no_match_found)
      end
  end.

Definition from_openmm (openmm_topology : OpenMMTopology)
    (unique_molecules : option (list Molecule)) : result Topology :=
  let omm_has_bond_orders :=
    fold_left (λ has_orders (omm_bond : Z * Z * option Z),
                 match omm_bond.2 with
                 | None => false
                 | Some _ => has_orders
                 end)
              (omm_bonds openmm_topology) true in
  let topology := __init__ in
  unique_molecules ← match unique_molecules with
                     | Some molecules => Ok molecules
                     | None => Raise TypeError
                     end;
  graph_to_unq_mol ← convert_unique_mols unique_molecules [] 0%nat;
  let omm_topology_G :=
    {| graph_id := (2 * length unique_molecules)%nat;
       graph_nodes := omm_atoms openmm_topology;
       graph_edges := omm_bonds openmm_topology |} in
  match_components topology graph_to_unq_mol omm_has_bond_orders
    (connected_component_subgraphs omm_topology_G).
End FromOpenMM.

(** *** Constraints *)

(** [unit.is_quantity] *)
Definition is_quantity (x : distance Quantity) : bool :=
  match x with
  | PyQuantity _ => true
  | _ => false
  end.

Definition is_True (x : distance Quantity) : bool :=
  match x with
  | PyTrue => true
  | _ => false
  end.

Definition is_False (x : distance Quantity) : bool :=
  match x with
  | PyFalse => true
  | _ => false
  end.

Definition set_constrained_atom_pairs (self : Topology)
    (pairs : gmap (Z * Z) (distance Quantity)) : Topology :=
  {| _constrained_atom_pairs := pairs;
     _reference_molecule_to_topology_molecules :=
       _reference_molecule_to_topology_molecules self;
     _topology_molecules := _topology_molecules self;
     _next_id := _next_id self |}.

(** [add_constraint] changes the dictionary in place: the topology after
    the call is returned together with the outcome of the call. *)
Definition add_constraint (self : Topology) (iatom jatom : Z)
    (distance : distance Quantity) : Topology * result unit :=
  let pairs := _constrained_atom_pairs self in
  let store :=
    (set_constrained_atom_pairs self
       (<[(jatom, iatom) := distance]> (<[(iatom, jatom) := distance]> pairs)),
     Ok ()) in
  match pairs !! (iatom, jatom) with
  | Some existing_distance =>
      if is_quantity existing_distance && is_True distance then
        (self, Raise (Exception already_constrained_with_distance))
      else if is_True existing_distance && is_True distance then
        (self, Raise (Exception already_constrained_with_unspecified_distance))
      else if is_False distance then
        let pairs := delete (iatom, jatom) pairs in
        match pairs !! (jatom, iatom) with
        | Some _ =>
            (set_constrained_atom_pairs self (delete (jatom, iatom) pairs), Ok ())
        | None => (set_constrained_atom_pairs self pairs, Raise KeyError)
        end
      else store
  | None => store
  end.

Definition is_constrained (self : Topology) (iatom jatom : Z)
  : distance Quantity :=
  match _constrained_atom_pairs self !! (iatom, jatom) with
  | Some existing_distance => existing_distance
  | None => PyFalse
  end.

Definition constrained_atom_pairs (self : Topology)
  : gmap (Z * Z) (distance Quantity) :=
  _constrained_atom_pairs self.
End Topology.
End Topology.

(** ** Reference quantities

    What the properties below compare the program with: the direct
    per-instance sum, the instances of a reference molecule in insertion
    order, the view of a local index, and the grouped list of matches. *)

(** [sum(count(instance) for instance in topology_molecules)] *)
Definition sum_over_instances (count : TopologyMolecule → Z)
    (topology_molecules : list TopologyMolecule) : Z :=
  foldr (λ instance total, count instance + total) 0 topology_molecules.

(** The instances of [ref_mol], in the order they were added. *)
Definition instances_of {Quantity : Type} (T : Topology Quantity)
    (ref_mol : Molecule) : list TopologyMolecule :=
  List.filter (λ instance, Molecule.eqb (_reference_molecule instance) ref_mol)
              (_topology_molecules T).

(** The [TopologyAtom] of [instance] at a local index, or [None]. *)
Definition view_of (instance : TopologyMolecule) (local_index : Z)
  : option TopologyAtom :=
  (λ a, {| _atom := a; ta_topology_molecule := instance |})
    <$> Molecule.atoms (_reference_molecule instance) !! Z.to_nat local_index.

(** Matches grouped by reference molecule, then by match, then by
    instance. *)
Definition expected_matches {Quantity : Type}
    (matches : Molecule → string → list (list Z)) (T : Topology Quantity)
    (smarts : string) : list (list (option TopologyAtom)) :=
  concat
    ((λ ref_mol,
        concat
          ((λ reference_match : list Z,
              (λ instance, view_of instance <$> reference_match)
                <$> instances_of T ref_mol)
             <$> matches ref_mol smarts))
       <$> Topology.reference_molecules T).

(** The instance a call of [add_molecule] creates. *)
Definition new_instance {Quantity : Type} (T : Topology Quantity)
    (reference_molecule : Molecule) : TopologyMolecule :=
  {| tm_id := _next_id T; _reference_molecule := reference_molecule |}.

(** The topology a call of [add_molecule] leaves. *)
Definition with_instance {Quantity : Type} (T : Topology Quantity)
    (refs : list (Molecule * list TopologyMolecule))
    (reference_molecule : Molecule) : Topology Quantity :=
  {| _constrained_atom_pairs := _constrained_atom_pairs T;
     _reference_molecule_to_topology_molecules := refs;
     _topology_molecules :=
       _topology_molecules T ++ [new_instance T reference_molecule];
     _next_id := S (_next_id T) |}.

(** What [add_molecule] keeps true of a topology. *)
Record topology_inv {Quantity : Type} (T : Topology Quantity) : Prop := {
  inv_ids : NoDup (tm_id <$> _topology_molecules T);
  inv_fresh :
    Forall (λ instance, (tm_id instance < _next_id T)%nat) (_topology_molecules T);
  inv_keys : NoDup (to_smiles <$> Topology.reference_molecules T);
  inv_refs :
    Forall (λ instance, _reference_molecule instance ∈ Topology.reference_molecules T)
           (_topology_molecules T);
  inv_entries :
    Forall (λ entry : Molecule * list TopologyMolecule,
              entry.2 = instances_of T entry.1)
           (_reference_molecule_to_topology_molecules T);
  inv_counts :
    ∀ count : Molecule → Z,
      Topology.n_grouped count T
      = sum_over_instances (λ instance, count (_reference_molecule instance))
          (_topology_molecules T)
}.

(** ** Example inputs *)

Definition water : Molecule :=
  {| to_smiles := "O";
     atom_table := [8; 1; 1];
     bond_table := [(0, 1, 1); (0, 2, 1)];
     virtual_site_table := [[0; 1; 2]] |}.

Definition ethanol : Molecule :=
  {| to_smiles := "CCO";
     atom_table := [6; 6; 8];
     bond_table := [(0, 1, 1); (1, 2, 1)];
     virtual_site_table := [] |}.

(** A second candidate, under another name, with the graph of [self]. *)
Definition same_graph_as (self : Molecule) (name : string) : Molecule :=
  {| to_smiles := name;
     atom_table := atom_table self;
     bond_table := bond_table self;
     virtual_site_table := [] |}.

(** A molecule capability that matches the first two atoms, both ways. *)
Definition first_two_atoms (molecule : Molecule) (smarts : string)
  : list (list Z) :=
  [[0; 1]; [1; 0]].

(** A graph capability for which every graph is one component. *)
Definition one_component (G : Graph) : list Graph := [G].

(** A graph capability that compares nodes and edges as they are listed. *)
Definition same_listing (G1 G2 : Graph) (edge_match : bool) : bool :=
  bool_decide (graph_nodes G1 = graph_nodes G2)
  && (negb edge_match || bool_decide (graph_edges G1 = graph_edges G2)).

(** A topology whose atoms 0 and 1 are constrained at distance 3:
    [Topology()] after [add_constraint(0, 1, 3)]. *)
Definition constrained_at_distance : Topology Z :=
  (Topology.add_constraint Topology.__init__ 0 1 (PyQuantity 3)).1.

(** The topology after a sequence of [add_constraint(iatom, jatom, distance)]
    calls, whatever the outcome of each call. *)
Definition add_constraints {Quantity : Type} (T : Topology Quantity)
    (calls : list (Z * Z * distance Quantity)) : Topology Quantity :=
  fold_left
    (λ topology call,
       (Topology.add_constraint topology call.1.1 call.1.2 call.2).1)
    calls T.

(** ** Bonded atoms *)











(** * Properties *)

(** ** Sequences *)

Lemma bind_Ok {A B : Type} (f : A → result B) (a : A) : (Ok a ≫= f) = f a.
Proof. reflexivity. Qed.

Lemma py_getitem_in_range {A : Type} (l : list A) (i : Z) (x : A) :
  0 <= i → l !! Z.to_nat i = Some x → py_getitem l i = Ok x.
Proof.
  intros Hi Hx. unfold py_getitem.
  pose proof (lookup_lt_Some _ _ _ Hx) as Hlt.
  destruct (Z.ltb_spec i 0); [lia|].
  destruct (Z.ltb_spec i 0); [lia|].
  destruct (Z.leb_spec (Z.of_nat (length l)) i); [lia|].
  simpl. by rewrite Hx.
Qed.

Lemma py_getitem_first {A : Type} (a : A) (l : list A) :
  py_getitem (a :: l) 0 = Ok a.
Proof. by apply py_getitem_in_range. Qed.

Lemma list_last_lookup {A : Type} (l : list A) (a d : A) :
  (a :: l) !! length l = Some (List.last (a :: l) d).
Proof.
  revert a. induction l as [|b l IH]; intros a; [done|].
  change ((b :: l) !! length l = Some (List.last (b :: l) d)). apply IH.
Qed.

Lemma py_getitem_last {A : Type} (a : A) (l : list A) :
  py_getitem (a :: l) (-1) = Ok (List.last (a :: l) a).
Proof.
  unfold py_getitem.
  replace (-1 <? 0) with true by done. cbn [length].
  replace (-1 + Z.of_nat (S (length l))) with (Z.of_nat (length l)) by lia.
  destruct (Z.ltb_spec (Z.of_nat (length l)) 0); [lia|].
  destruct (Z.leb_spec (Z.of_nat (S (length l))) (Z.of_nat (length l))); [lia|].
  simpl. rewrite Nat2Z.id. by rewrite (list_last_lookup l a a).
Qed.

(** ** Sorting *)

Lemma sort_insert_perm (x : Z) (l : list Z) : sort_insert x l ≡ₚ x :: l.
Proof.
  induction l as [|y l IH]; simpl; [done|].
  destruct (x <=? y); [done|]. rewrite IH. apply Permutation_swap.
Qed.

Lemma py_sort_perm (l : list Z) : py_sort l ≡ₚ l.
Proof.
  induction l as [|x l IH]; simpl; [done|].
  unfold py_sort in *. simpl. rewrite sort_insert_perm. by rewrite IH.
Qed.

Lemma sort_insert_sorted (x : Z) (l : list Z) :
  StronglySorted Z.le l → StronglySorted Z.le (sort_insert x l).
Proof.
  induction 1 as [|y l Hl IH Hy]; simpl.
  - repeat constructor.
  - destruct (Z.leb_spec x y).
    + constructor; [by constructor|]. constructor; [done|].
      eapply Forall_impl; [exact Hy|]. intros; simpl in *; lia.
    + constructor; [done|].
      rewrite sort_insert_perm. constructor; [lia|done].
Qed.

Lemma py_sort_sorted (l : list Z) : StronglySorted Z.le (py_sort l).
Proof.
  induction l as [|x l IH]; [constructor|].
  unfold py_sort in *. simpl. by apply sort_insert_sorted.
Qed.

Lemma py_sort_unique (l l' : list Z) : l ≡ₚ l' → py_sort l = py_sort l'.
Proof.
  intros Hp. apply (StronglySorted_unique Z.le); try apply py_sort_sorted.
  by rewrite !py_sort_perm.
Qed.

Lemma py_sort_three (a b c : Z) :
  ∃ s0 s1 s2, py_sort [a; b; c] = [s0; s1; s2] ∧ s0 <= s1 ∧ s1 <= s2.
Proof.
  pose proof (py_sort_sorted [a; b; c]) as Hs.
  pose proof (Permutation_length (py_sort_perm [a; b; c])) as Hlen.
  destruct (py_sort [a; b; c]) as [|s0 [|s1 [|s2 [|? ?]]]]; try done.
  exists s0, s1, s2. split; [done|].
  apply StronglySorted_inv in Hs as [Hs H0].
  apply StronglySorted_inv in Hs as [_ H1].
  apply Forall_cons in H0 as [? _]. apply Forall_cons in H1 as [? _]. done.
Qed.

(** ** Canonical keys *)

Lemma valence_keytransform_nonempty (a0 : Z) (rest : list Z) :
  ValenceDict.__keytransform__ (a0 :: rest)
  = Ok (if a0 >? List.last (a0 :: rest) a0 then reverse (a0 :: rest)
        else a0 :: rest).
Proof.
  unfold ValenceDict.__keytransform__.
  rewrite py_getitem_first, bind_Ok, py_getitem_last, bind_Ok.
  by destruct (a0 >? _).
Qed.

Lemma transformed_same_entry {V : Type} (kt : list Z → result (list Z))
    (d : list (list Z * V)) (key key' : list Z) (v : V) :
  kt key = kt key' →
  _TransformedDict.__getitem__ kt d key = _TransformedDict.__getitem__ kt d key'
  ∧ _TransformedDict.__setitem__ kt d key v
    = _TransformedDict.__setitem__ kt d key' v
  ∧ _TransformedDict.__delitem__ kt d key = _TransformedDict.__delitem__ kt d key'.
Proof.
  intros H. unfold _TransformedDict.__getitem__, _TransformedDict.__setitem__,
    _TransformedDict.__delitem__. by rewrite H.
Qed.

(** The two traversal directions of a tuple whose ends differ have the
    same canonical key. *)
Lemma valence_reverse_same_key (a0 an : Z) (mid : list Z) :
  a0 ≠ an →
  ValenceDict.__keytransform__ (reverse (a0 :: mid ++ [an]))
  = ValenceDict.__keytransform__ (a0 :: mid ++ [an]).
Proof.
  intros Hne.
  rewrite reverse_cons, reverse_app, reverse_singleton. simpl.
  rewrite !valence_keytransform_nonempty.
  rewrite (app_comm_cons mid [an] a0), List.last_last.
  rewrite (app_comm_cons (reverse mid) [a0] an), List.last_last.
  rewrite <- !app_comm_cons.
  rewrite reverse_cons, reverse_app, reverse_singleton, reverse_involutive.
  rewrite reverse_cons, reverse_app, reverse_singleton. simpl.
  destruct (Z.gtb_spec a0 an), (Z.gtb_spec an a0); try done; lia.
Qed.

(** C7: the canonical key of a [ValenceDict] is the reversed tuple exactly
    when the first index is larger than the last, and the tuple itself
    otherwise; [__getitem__], [__setitem__] and [__delitem__] all go to the
    entry stored under that key, so (3,1) and (1,3), and (1,2,3) and
    (3,2,1), address the same entry. *)
Theorem valence_dict_canonical_key :
  (∀ (a0 : Z) (rest : list Z),
     ValenceDict.__keytransform__ (a0 :: rest)
     = Ok (if a0 >? List.last (a0 :: rest) a0 then reverse (a0 :: rest)
           else a0 :: rest))
  ∧ (∀ (V : Type) (d : list (list Z * V)) (a0 : Z) (rest : list Z) (v : V),
       let canonical :=
         if a0 >? List.last (a0 :: rest) a0 then reverse (a0 :: rest)
         else a0 :: rest in
       ValenceDict.__getitem__ d (a0 :: rest)
       = match od_get tuple_eqb d canonical with
         | Some x => Ok x
         | None => Raise KeyError
         end
       ∧ ValenceDict.__setitem__ d (a0 :: rest) v
         = Ok (od_set tuple_eqb d canonical v)
       ∧ ValenceDict.__delitem__ d (a0 :: rest)
         = match od_get tuple_eqb d canonical with
           | Some _ => Ok (od_del tuple_eqb d canonical)
           | None => Raise KeyError
           end)
  ∧ ValenceDict.__keytransform__ [3; 1] = Ok [1; 3]
  ∧ ValenceDict.__keytransform__ [1; 3] = Ok [1; 3]
  ∧ ValenceDict.__keytransform__ [3; 2; 1] = Ok [1; 2; 3]
  ∧ ValenceDict.__keytransform__ [1; 2; 3] = Ok [1; 2; 3]
  ∧ (∀ (V : Type) (d : list (list Z * V)) (v : V),
       ValenceDict.__getitem__ d [3; 1] = ValenceDict.__getitem__ d [1; 3]
       ∧ ValenceDict.__setitem__ d [3; 1] v = ValenceDict.__setitem__ d [1; 3] v
       ∧ ValenceDict.__delitem__ d [3; 1] = ValenceDict.__delitem__ d [1; 3]
       ∧ ValenceDict.__getitem__ d [3; 2; 1] = ValenceDict.__getitem__ d [1; 2; 3]
       ∧ ValenceDict.__setitem__ d [3; 2; 1] v
         = ValenceDict.__setitem__ d [1; 2; 3] v
       ∧ ValenceDict.__delitem__ d [3; 2; 1]
         = ValenceDict.__delitem__ d [1; 2; 3]).
Proof.
  split; [exact valence_keytransform_nonempty|].
  split.
  { intros V d a0 rest v canonical.
    unfold ValenceDict.__getitem__, ValenceDict.__setitem__,
      ValenceDict.__delitem__, _TransformedDict.__getitem__,
      _TransformedDict.__setitem__, _TransformedDict.__delitem__.
    rewrite valence_keytransform_nonempty. done. }
  repeat split; reflexivity.
Qed.

Lemma improper_keytransform_sorted (a0 center a2 a3 : Z) (tail : list Z) :
  ∃ s0 s1 s2,
    py_sort [a0; a2; a3] = [s0; s1; s2]
    ∧ ImproperDict.__keytransform__ (a0 :: center :: a2 :: a3 :: tail)
      = Ok [s0; center; s1; s2].
Proof.
  destruct (py_sort_three a0 a2 a3) as (s0 & s1 & s2 & Hs & _).
  exists s0, s1, s2. split; [done|].
  unfold ImproperDict.__keytransform__.
  rewrite py_getitem_first, bind_Ok.
  rewrite (py_getitem_in_range _ 2 a2), bind_Ok by done.
  rewrite (py_getitem_in_range _ 3 a3), bind_Ok by done.
  cbv zeta. rewrite Hs.
  rewrite py_getitem_first, bind_Ok.
  rewrite (py_getitem_in_range (a0 :: center :: a2 :: a3 :: tail) 1 center),
    bind_Ok by (done || lia).
  reflexivity.
Qed.

(** Any rearrangement of the three outer indices has the same canonical
    key. *)
Lemma improper_permutation_same_key (a0 a2 a3 b0 b2 b3 center : Z) :
  [b0; b2; b3] ≡ₚ [a0; a2; a3] →
  ImproperDict.__keytransform__ [b0; center; b2; b3]
  = ImproperDict.__keytransform__ [a0; center; a2; a3].
Proof.
  intros Hp.
  destruct (improper_keytransform_sorted a0 center a2 a3 [])
    as (s0 & s1 & s2 & Hs & ->).
  destruct (improper_keytransform_sorted b0 center b2 b3 [])
    as (t0 & t1 & t2 & Ht & ->).
  rewrite (py_sort_unique _ _ Hp), Hs in Ht. by simplify_eq.
Qed.

(** C8: the canonical key of an [ImproperDict] keeps the center (position
    1) and puts the other three indices around it in ascending order, so all
    six arrangements of the three outer indices address the same entry;
    (5,2,7,1), (1,2,7,5) and (7,2,1,5) all become (1,2,5,7). *)
Theorem improper_dict_canonical_key :
  (∀ a0 center a2 a3 : Z,
     ∃ s0 s1 s2,
       py_sort [a0; a2; a3] = [s0; s1; s2]
       ∧ [s0; s1; s2] ≡ₚ [a0; a2; a3]
       ∧ s0 <= s1 ∧ s1 <= s2
       ∧ ImproperDict.__keytransform__ [a0; center; a2; a3]
         = Ok [s0; center; s1; s2])
  ∧ (∀ a0 center a2 a3 : Z,
       let canonical := ImproperDict.__keytransform__ [a0; center; a2; a3] in
       ImproperDict.__keytransform__ [a0; center; a3; a2] = canonical
       ∧ ImproperDict.__keytransform__ [a2; center; a0; a3] = canonical
       ∧ ImproperDict.__keytransform__ [a2; center; a3; a0] = canonical
       ∧ ImproperDict.__keytransform__ [a3; center; a0; a2] = canonical
       ∧ ImproperDict.__keytransform__ [a3; center; a2; a0] = canonical)
  ∧ ImproperDict.__keytransform__ [5; 2; 7; 1] = Ok [1; 2; 5; 7]
  ∧ ImproperDict.__keytransform__ [1; 2; 7; 5] = Ok [1; 2; 5; 7]
  ∧ ImproperDict.__keytransform__ [7; 2; 1; 5] = Ok [1; 2; 5; 7]
  ∧ (∀ (V : Type) (d : list (list Z * V)) (v : V),
       ImproperDict.__getitem__ d [5; 2; 7; 1]
       = ImproperDict.__getitem__ d [1; 2; 7; 5]
       ∧ ImproperDict.__getitem__ d [1; 2; 7; 5]
         = ImproperDict.__getitem__ d [7; 2; 1; 5]
       ∧ ImproperDict.__setitem__ d [5; 2; 7; 1] v
         = ImproperDict.__setitem__ d [1; 2; 7; 5] v
       ∧ ImproperDict.__setitem__ d [1; 2; 7; 5] v
         = ImproperDict.__setitem__ d [7; 2; 1; 5] v
       ∧ ImproperDict.__delitem__ d [5; 2; 7; 1]
         = ImproperDict.__delitem__ d [1; 2; 7; 5]
       ∧ ImproperDict.__delitem__ d [1; 2; 7; 5]
         = ImproperDict.__delitem__ d [7; 2; 1; 5]).
Proof.
  split.
  { intros a0 center a2 a3.
    destruct (py_sort_three a0 a2 a3) as (s0 & s1 & s2 & Hs & H01 & H12).
    destruct (improper_keytransform_sorted a0 center a2 a3 [])
      as (t0 & t1 & t2 & Ht & Hk).
    rewrite Hs in Ht. simplify_eq.
    exists t0, t1, t2. repeat split; try done.
    rewrite <- Hs. apply py_sort_perm. }
  split.
  { intros a0 center a2 a3 canonical. subst canonical.
    repeat split; apply improper_permutation_same_key.
    - apply perm_skip, perm_swap.
    - apply perm_swap.
    - etrans; [apply perm_skip, perm_swap | apply perm_swap].
    - etrans; [apply perm_swap | apply perm_skip, perm_swap].
    - etrans; [apply perm_skip, perm_swap |].
      etrans; [apply perm_swap | apply perm_skip, perm_swap]. }
  repeat split; reflexivity.
Qed.

(** ** Constraints *)
Section Constraints.
Context {Quantity : Type}.
Implicit Types (T : Topology Quantity) (i j : Z).

Lemma is_constrained_set T (pairs : gmap (Z * Z) (distance Quantity)) i j :
  Topology.is_constrained (Topology.set_constrained_atom_pairs T pairs) i j
  = match pairs !! (i, j) with
    | Some existing_distance => existing_distance
    | None => PyFalse
    end.
Proof. reflexivity. Qed.

Lemma lookup_stored_pair (pairs : gmap (Z * Z) (distance Quantity)) i j
    (d : distance Quantity) :
  <[(j, i) := d]> (<[(i, j) := d]> pairs) !! (i, j) = Some d
  ∧ <[(j, i) := d]> (<[(i, j) := d]> pairs) !! (j, i) = Some d.
Proof.
  split; [|by rewrite lookup_insert_eq].
  destruct (decide ((j, i) = (i, j))) as [->|Hne].
  - by rewrite lookup_insert_eq.
  - by rewrite lookup_insert_ne, lookup_insert_eq.
Qed.

(** A call with a concrete distance always stores it, in both directions. *)
Lemma add_constraint_quantity T i j (q : Quantity) :
  Topology.add_constraint T i j (PyQuantity q)
  = (Topology.set_constrained_atom_pairs T
       (<[(j, i) := PyQuantity q]>
          (<[(i, j) := PyQuantity q]> (_constrained_atom_pairs T))),
     Ok ()).
Proof.
  unfold Topology.add_constraint.
  destruct (_constrained_atom_pairs T !! (i, j)) as [existing|]; [|done].
  simpl. rewrite !andb_false_r. done.
Qed.

(** C5, as amended: [add_constraint(i, j, True)] on a pair that is not
    constrained marks it pending, and [is_constrained] then returns [True];
    on a pair that is pending or has a distance it raises and leaves the
    topology as it was, so [is_constrained] answers as before the call:
    [True] for the pending pair, the distance for the other.
    [add_constraint(i, j, d)] with a quantity [d] always succeeds, also over
    a pending constraint, and [is_constrained] then returns [d]. After
    [add_constraint(i, j, False)], [is_constrained(i, j)] returns [False];
    on an existing constraint the key is deleted. *)
Theorem add_constraint_then_is_constrained T i j :
  match _constrained_atom_pairs T !! (i, j) with
  | None | Some PyFalse =>
      ∃ T', Topology.add_constraint T i j PyTrue = (T', Ok ())
            ∧ Topology.is_constrained T' i j = PyTrue
            ∧ Topology.is_constrained T' j i = PyTrue
  | Some PyTrue =>
      Topology.add_constraint T i j PyTrue
      = (T, Raise (Exception already_constrained_with_unspecified_distance))
      ∧ Topology.is_constrained T i j = PyTrue
  | Some (PyQuantity q) =>
      Topology.add_constraint T i j PyTrue
      = (T, Raise (Exception already_constrained_with_distance))
      ∧ Topology.is_constrained T i j = PyQuantity q
  end
  ∧ (∀ q : Quantity,
       ∃ T', Topology.add_constraint T i j (PyQuantity q) = (T', Ok ())
             ∧ Topology.is_constrained T' i j = PyQuantity q
             ∧ Topology.is_constrained T' j i = PyQuantity q)
  ∧ (∀ q : Quantity,
       let pending := (Topology.add_constraint
                         (Topology.set_constrained_atom_pairs T
                            (delete (i, j) (_constrained_atom_pairs T)))
                         i j PyTrue).1 in
       Topology.is_constrained pending i j = PyTrue
       ∧ ∃ T', Topology.add_constraint pending i j (PyQuantity q) = (T', Ok ())
               ∧ Topology.is_constrained T' i j = PyQuantity q)
  ∧ Topology.is_constrained (Topology.add_constraint T i j PyFalse).1 i j
    = PyFalse
  ∧ match _constrained_atom_pairs T !! (i, j) with
    | Some _ =>
        _constrained_atom_pairs (Topology.add_constraint T i j PyFalse).1
          !! (i, j) = None
        ∧ _constrained_atom_pairs (Topology.add_constraint T i j PyFalse).1
            !! (j, i) = None
        ∧ (Topology.add_constraint T i j PyFalse).2
          = match delete (i, j) (_constrained_atom_pairs T) !! (j, i) with
            | Some _ => Ok ()
            | None => Raise KeyError
            end
    | None =>
        _constrained_atom_pairs (Topology.add_constraint T i j PyFalse).1
          !! (i, j) = Some PyFalse
    end.
Proof.
  assert (Hq : ∀ (T0 : Topology Quantity) (q : Quantity),
             ∃ T', Topology.add_constraint T0 i j (PyQuantity q) = (T', Ok ())
                   ∧ Topology.is_constrained T' i j = PyQuantity q
                   ∧ Topology.is_constrained T' j i = PyQuantity q).
  { intros T0 q. eexists. split; [apply add_constraint_quantity|].
    rewrite !is_constrained_set.
    by destruct (lookup_stored_pair (_constrained_atom_pairs T0) i j
                   (PyQuantity q)) as [-> ->]. }
  assert (Hstore : ∀ pairs : gmap (Z * Z) (distance Quantity),
             Topology.is_constrained
               (Topology.set_constrained_atom_pairs T
                  (<[(j, i) := PyTrue]> (<[(i, j) := PyTrue]> pairs))) i j
             = PyTrue
             ∧ Topology.is_constrained
                 (Topology.set_constrained_atom_pairs T
                    (<[(j, i) := PyTrue]> (<[(i, j) := PyTrue]> pairs))) j i
               = PyTrue).
  { intros pairs. rewrite !is_constrained_set.
    by destruct (lookup_stored_pair pairs i j PyTrue) as [-> ->]. }
  split; [|split; [|split; [|split]]].
  - unfold Topology.add_constraint.
    destruct (_constrained_atom_pairs T !! (i, j)) as [[| |q]|] eqn:Hex; simpl.
    + split; [done|]. unfold Topology.is_constrained. by rewrite Hex.
    + eexists; split; [done|]. apply Hstore.
    + split; [done|]. unfold Topology.is_constrained. by rewrite Hex.
    + eexists; split; [done|]. apply Hstore.
  - apply Hq.
  - intros q pending.
    assert (Hp : Topology.is_constrained pending i j = PyTrue).
    { subst pending. unfold Topology.add_constraint. simpl.
      rewrite lookup_delete_eq. simpl. rewrite is_constrained_set.
      by destruct (lookup_stored_pair
                     (delete (i, j) (_constrained_atom_pairs T)) i j PyTrue)
        as [-> _]. }
    split; [done|].
    destruct (Hq pending q) as (T' & ? & ? & _). by exists T'.
  - unfold Topology.add_constraint.
    destruct (_constrained_atom_pairs T !! (i, j)) as [existing|] eqn:Hex.
    + rewrite !andb_false_r. simpl.
      destruct (delete (i, j) (_constrained_atom_pairs T) !! (j, i)) eqn:Hji;
        simpl; rewrite is_constrained_set.
      * destruct (decide ((j, i) = (i, j))) as [->|Hne].
        -- by rewrite lookup_delete_eq.
        -- by rewrite lookup_delete_ne, lookup_delete_eq.
      * by rewrite lookup_delete_eq.
    + simpl. rewrite is_constrained_set.
      by destruct (lookup_stored_pair (_constrained_atom_pairs T) i j PyFalse)
        as [-> _].
  - unfold Topology.add_constraint.
    destruct (_constrained_atom_pairs T !! (i, j)) as [existing|] eqn:Hex.
    + rewrite !andb_false_r. simpl.
      destruct (delete (i, j) (_constrained_atom_pairs T) !! (j, i)) eqn:Hji;
        simpl.
      * split; [|split; [|done]].
        -- destruct (decide ((j, i) = (i, j))) as [->|Hne].
           ++ by rewrite lookup_delete_eq.
           ++ by rewrite lookup_delete_ne, lookup_delete_eq.
        -- by rewrite lookup_delete_eq.
      * split; [|split; [|done]]; [by rewrite lookup_delete_eq|done].
    + simpl.
      by destruct (lookup_stored_pair (_constrained_atom_pairs T) i j PyFalse)
        as [-> _].
Qed.

(** C10: removing the constraint of a pair that has none does not raise
    and deletes nothing: [False] is stored under both keys, every other
    entry is as before, [is_constrained] returns [False] in both directions
    and the pair is now among the keys of [constrained_atom_pairs]. *)
Theorem add_constraint_False_on_unconstrained_pair T i j :
  _constrained_atom_pairs T !! (i, j) = None →
  _constrained_atom_pairs T !! (j, i) = None →
  ∃ T',
    Topology.add_constraint T i j PyFalse = (T', Ok ())
    ∧ Topology.constrained_atom_pairs T'
      = <[(j, i) := PyFalse]> (<[(i, j) := PyFalse]> (_constrained_atom_pairs T))
    ∧ Topology.constrained_atom_pairs T' !! (i, j) = Some PyFalse
    ∧ Topology.constrained_atom_pairs T' !! (j, i) = Some PyFalse
    ∧ _constrained_atom_pairs T ⊆ Topology.constrained_atom_pairs T'
    ∧ Topology.is_constrained T' i j = PyFalse
    ∧ Topology.is_constrained T' j i = PyFalse
    ∧ (i, j) ∈ dom (Topology.constrained_atom_pairs T')
    ∧ (j, i) ∈ dom (Topology.constrained_atom_pairs T')
    ∧ (i, j) ∉ dom (Topology.constrained_atom_pairs T).
Proof.
  intros Hij Hji. eexists. split.
  { unfold Topology.add_constraint. by rewrite Hij. }
  destruct (lookup_stored_pair (_constrained_atom_pairs T) i j PyFalse)
    as [H1 H2].
  unfold Topology.constrained_atom_pairs. rewrite !is_constrained_set. simpl.
  rewrite H1, H2. repeat split; try done.
  - apply map_subseteq_spec. intros k v Hk.
    destruct (decide (k = (j, i))) as [->|Hne1]; [congruence|].
    destruct (decide (k = (i, j))) as [->|Hne2]; [congruence|].
    by rewrite !lookup_insert_ne.
  - apply elem_of_dom. by rewrite H1.
  - apply elem_of_dom. by rewrite H2.
  - rewrite elem_of_dom, Hij. by intros [? ?].
Qed.
End Constraints.

(** ** The result monad *)

Lemma mapM_Ok {A B : Type} (f : A → result B) (g : A → B) (l : list A) :
  Forall (λ x, f x = Ok (g x)) l → mapM f l = Ok (g <$> l).
Proof.
  induction 1 as [|x l Hx _ IH]; [done|].
  cbn [mapM]. rewrite Hx, bind_Ok, IH. done.
Qed.

(** ** Local lookups in a molecule *)

Lemma molecule_atom_lookup (m : Molecule) (i : Z) :
  0 <= i < Molecule.n_atoms m →
  ∃ a, Molecule.atoms m !! Z.to_nat i = Some a ∧ molecule_atom_index a = i.
Proof.
  unfold Molecule.n_atoms, Molecule.atoms. rewrite length_imap. intros Hi.
  destruct (lookup_lt_is_Some_2 (atom_table m) (Z.to_nat i)) as [z Hz]; [lia|].
  eexists. rewrite list_lookup_imap, Hz. split; [done|]. simpl. lia.
Qed.

Lemma molecule_bond_lookup (m : Molecule) (i : Z) :
  0 <= i < Molecule.n_bonds m →
  ∃ b, Molecule.bonds m !! Z.to_nat i = Some b ∧ molecule_bond_index b = i.
Proof.
  unfold Molecule.n_bonds, Molecule.bonds. rewrite length_imap. intros Hi.
  destruct (lookup_lt_is_Some_2 (bond_table m) (Z.to_nat i)) as [z Hz]; [lia|].
  eexists. rewrite list_lookup_imap, Hz. split; [done|]. simpl. lia.
Qed.

Lemma molecule_virtual_site_lookup (m : Molecule) (i : Z) :
  0 <= i < Molecule.n_virtual_sites m →
  ∃ v, Molecule.virtual_sites m !! Z.to_nat i = Some v
       ∧ molecule_virtual_site_index v = i.
Proof.
  unfold Molecule.n_virtual_sites, Molecule.virtual_sites.
  rewrite length_imap. intros Hi.
  destruct (lookup_lt_is_Some_2 (virtual_site_table m) (Z.to_nat i))
    as [z Hz]; [lia|].
  eexists. rewrite list_lookup_imap, Hz. split; [done|]. simpl. lia.
Qed.

Lemma topology_molecule_atom (tm : TopologyMolecule) (i : Z) :
  0 <= i < TopologyMolecule.n_atoms tm →
  ∃ a, view_of tm i = Some a
       ∧ TopologyMolecule.atom tm i = Ok a
       ∧ ta_topology_molecule a = tm
       ∧ molecule_atom_index (_atom a) = i.
Proof.
  intros Hi. destruct (molecule_atom_lookup _ i Hi) as (a & Ha & Hidx).
  exists {| _atom := a; ta_topology_molecule := tm |}.
  unfold view_of, TopologyMolecule.atom. rewrite Ha.
  rewrite (py_getitem_in_range _ i a) by (lia || done). done.
Qed.

Lemma topology_molecule_bond (tm : TopologyMolecule) (i : Z) :
  0 <= i < TopologyMolecule.n_bonds tm →
  ∃ b, TopologyMolecule.bond tm i = Ok b
       ∧ tb_topology_molecule b = tm
       ∧ molecule_bond_index (_bond b) = i.
Proof.
  intros Hi. destruct (molecule_bond_lookup _ i Hi) as (b & Hb & Hidx).
  exists {| _bond := b; tb_topology_molecule := tm |}.
  unfold TopologyMolecule.bond, TopologyMolecule.reference_molecule.
  rewrite (py_getitem_in_range _ i b) by (lia || done). done.
Qed.

Lemma topology_molecule_virtual_site (tm : TopologyMolecule) (i : Z) :
  0 <= i < TopologyMolecule.n_virtual_sites tm →
  ∃ v, TopologyMolecule.virtual_site tm i = Ok v
       ∧ tv_topology_molecule v = tm
       ∧ molecule_virtual_site_index (_virtual_site v) = i.
Proof.
  intros Hi. destruct (molecule_virtual_site_lookup _ i Hi) as (v & Hv & Hidx).
  exists {| _virtual_site := v; tv_topology_molecule := tm |}.
  unfold TopologyMolecule.virtual_site, TopologyMolecule.reference_molecule.
  rewrite (py_getitem_in_range _ i v) by (lia || done). done.
Qed.

(** ** The two scans *)
Section Scans.
Variable count : TopologyMolecule → Z.
Hypothesis count_nonneg : ∀ tm, 0 <= count tm.

Lemma sum_over_instances_app (l1 l2 : list TopologyMolecule) :
  sum_over_instances count (l1 ++ l2)
  = sum_over_instances count l1 + sum_over_instances count l2.
Proof.
  induction l1 as [|tm l1 IH]; simpl; [done|].
  unfold sum_over_instances in *. simpl. rewrite IH. lia.
Qed.

Lemma sum_over_instances_nonneg (l : list TopologyMolecule) :
  0 <= sum_over_instances count l.
Proof.
  induction l as [|tm l IH]; simpl; [done|].
  specialize (count_nonneg tm). unfold sum_over_instances in *. simpl. lia.
Qed.

(** The lookup scan stops at the instance whose index range holds the
    index, and hands it the local index. *)
Lemma lookup_scan_in_range {View : Type}
    (get : TopologyMolecule → Z → result View)
    (tms : list TopologyMolecule) (k start : Z) :
  start <= k < start + sum_over_instances count tms →
  ∃ pre tm post,
    tms = pre ++ tm :: post
    ∧ start + sum_over_instances count pre <= k
    ∧ k < start + sum_over_instances count pre + count tm
    ∧ Topology.lookup_scan count get tms k start start
      = (v ← get tm (k - (start + sum_over_instances count pre)); Ok (Some v)).
Proof.
  revert start. induction tms as [|tm tms IH]; intros start Hk.
  - simpl in Hk. lia.
  - cbn [Topology.lookup_scan]. cbv zeta.
    destruct (Z.gtb_spec (start + count tm) k) as [Hgt|Hle].
    + exists [], tm, tms. simpl.
      replace (k - (start + 0)) with (k - start) by lia.
      repeat split; (done || lia).
    + destruct (IH (start + count tm)) as (pre & tm' & post & -> & H1 & H2 & H3).
      { change (sum_over_instances count (tm :: tms))
          with (count tm + sum_over_instances count tms) in Hk. lia. }
      exists (tm :: pre), tm', post.
      change (sum_over_instances count (tm :: pre))
        with (count tm + sum_over_instances count pre).
      rewrite H3.
      replace (start + (count tm + sum_over_instances count pre))
        with (start + count tm + sum_over_instances count pre) by lia.
      repeat split; (done || lia).
Qed.

(** Past the last instance the loop ends without a result. *)
Lemma lookup_scan_past_end {View : Type}
    (get : TopologyMolecule → Z → result View)
    (tms : list TopologyMolecule) (k start : Z) :
  start + sum_over_instances count tms <= k →
  Topology.lookup_scan count get tms k start start = Ok None.
Proof.
  revert start. induction tms as [|tm tms IH]; intros start Hk; [done|].
  cbn [Topology.lookup_scan]. cbv zeta.
  change (sum_over_instances count (tm :: tms))
    with (count tm + sum_over_instances count tms) in Hk.
  pose proof (sum_over_instances_nonneg tms).
  destruct (Z.gtb_spec (start + count tm) k) as [Hgt|Hle]; [lia|].
  apply IH. lia.
Qed.

(** The start index of an instance is the sum over the instances before
    it. *)
Lemma start_topology_index_at (pre post : list TopologyMolecule)
    (tm : TopologyMolecule) (acc : Z) :
  tm_id tm ∉ tm_id <$> pre →
  TopologyMolecule.start_topology_index count tm (pre ++ tm :: post) acc
  = Some (acc + sum_over_instances count pre).
Proof.
  revert acc. induction pre as [|x pre IH]; intros acc Hnot; simpl.
  - unfold TopologyMolecule.eqb. rewrite Nat.eqb_refl. f_equal. lia.
  - rewrite fmap_cons, not_elem_of_cons in Hnot. destruct Hnot as [Hne Hnot].
    unfold TopologyMolecule.eqb at 1.
    destruct (Nat.eqb_spec (tm_id tm) (tm_id x)) as [Heq|_]; [done|].
    rewrite IH by done. f_equal.
    change (sum_over_instances count (x :: pre))
      with (count x + sum_over_instances count pre). lia.
Qed.
End Scans.

(** ** Ordered dictionaries *)
Section OrderedDictFacts.
Context {K V : Type} (keq : K → K → bool).

Lemma od_alter_at (f : V → V) (pre post : list (K * V)) (k k' : K) (v : V) :
  Forall (λ e, keq e.1 k = false) pre → keq k' k = true →
  od_alter keq f (pre ++ (k', v) :: post) k = pre ++ (k', f v) :: post.
Proof.
  intros Hpre Hk. induction Hpre as [|[k0 v0] pre H0 _ IH]; simpl in *.
  - by rewrite Hk.
  - by rewrite H0, IH.
Qed.

Lemma od_set_fresh (d : list (K * V)) (k : K) (v : V) :
  Forall (λ e, keq e.1 k = false) d → od_set keq d k v = d ++ [(k, v)].
Proof.
  induction 1 as [|[k0 v0] d H0 _ IH]; simpl in *; [done|].
  by rewrite H0, IH.
Qed.

Lemma find_keys_split (p : K → bool) (d : list (K * V)) (r : K) :
  List.find p (od_keys d) = Some r →
  ∃ pre v post, d = pre ++ (r, v) :: post
                ∧ Forall (λ e, p e.1 = false) pre ∧ p r = true.
Proof.
  induction d as [|[k0 v0] d IH]; simpl; [done|].
  destruct (p k0) eqn:Hp.
  - intros [= <-]. by exists [], v0, d.
  - intros Hf. destruct (IH Hf) as (pre & v & post & -> & Hpre & Hr).
    exists ((k0, v0) :: pre), v, post. split; [done|].
    split; [by constructor|done].
Qed.

Lemma find_keys_none (p : K → bool) (d : list (K * V)) :
  List.find p (od_keys d) = None → Forall (λ e, p e.1 = false) d.
Proof.
  induction d as [|[k0 v0] d IH]; simpl; [constructor|].
  destruct (p k0) eqn:Hp; [done|]. intros Hf. constructor; [done|by apply IH].
Qed.
End OrderedDictFacts.

(** ** [add_molecule] *)
Section AddMolecule.
Context {Quantity : Type}.
Implicit Types (T : Topology Quantity) (m : Molecule).

(** Either a key with the fingerprint of the molecule exists, and the new
    instance joins its list; or none does, and a new entry is added at the
    end. *)
Lemma add_molecule_cases T m :
  (∃ r pre insts post,
      _reference_molecule_to_topology_molecules T = pre ++ (r, insts) :: post
      ∧ to_smiles r = to_smiles m
      ∧ Forall (λ e, to_smiles e.1 ≠ to_smiles m) pre
      ∧ Topology.add_molecule T m
        = (with_instance T (pre ++ (r, insts ++ [new_instance T r]) :: post) r,
           Z.of_nat (length (_topology_molecules T)) + 1))
  ∨ (Forall (λ e, to_smiles e.1 ≠ to_smiles m)
            (_reference_molecule_to_topology_molecules T)
     ∧ Topology.add_molecule T m
       = (with_instance T
            (_reference_molecule_to_topology_molecules T
               ++ [(m, [new_instance T m])]) m,
          Z.of_nat (length (_topology_molecules T)) + 1)).
Proof.
  unfold Topology.add_molecule.
  set (p := λ potential_ref_mol : Molecule,
              String.eqb (to_smiles m) (to_smiles potential_ref_mol)).
  assert (Hlen : ∀ tm : TopologyMolecule,
             Z.of_nat (length (_topology_molecules T ++ [tm]))
             = Z.of_nat (length (_topology_molecules T)) + 1).
  { intros tm. rewrite length_app. simpl. lia. }
  destruct (List.find p (od_keys (_reference_molecule_to_topology_molecules T)))
    as [r|] eqn:Hfind.
  - left. destruct (find_keys_split _ _ _ Hfind)
      as (pre & insts & post & Hrefs & Hpre & Hr).
    subst p. simpl in Hr. apply String.eqb_eq in Hr.
    exists r, pre, insts, post. split; [done|]. split; [done|].
    assert (Hpre' : Forall (λ e : Molecule * list TopologyMolecule,
                to_smiles e.1 ≠ to_smiles m) pre).
    { eapply Forall_impl; [exact Hpre|]. intros e He Heq. simpl in He.
      rewrite Heq, String.eqb_refl in He. done. }
    split; [done|].
    rewrite List.last_last, Hlen, Hrefs.
    rewrite (od_alter_at Molecule.eqb _ pre post r r insts).
    + done.
    + eapply Forall_impl; [exact Hpre'|]. intros e He. unfold Molecule.eqb.
      apply String.eqb_neq. congruence.
    + unfold Molecule.eqb. apply String.eqb_refl.
  - right. apply find_keys_none in Hfind.
    assert (Hall : Forall (λ e : Molecule * list TopologyMolecule,
                to_smiles e.1 ≠ to_smiles m)
              (_reference_molecule_to_topology_molecules T)).
    { eapply Forall_impl; [exact Hfind|]. intros e He Heq. subst p.
      simpl in He. rewrite Heq, String.eqb_refl in He. done. }
    split; [done|].
    assert (Hkeq : Forall (λ e : Molecule * list TopologyMolecule,
                Molecule.eqb e.1 m = false)
              (_reference_molecule_to_topology_molecules T)).
    { eapply Forall_impl; [exact Hall|]. intros e He. unfold Molecule.eqb.
      by apply String.eqb_neq. }
    unfold FrozenMolecule.
    rewrite List.last_last, Hlen, (od_set_fresh _ _ _ _ Hkeq).
    rewrite (od_alter_at Molecule.eqb _ _ [] m m []); [done|done|].
    unfold Molecule.eqb. apply String.eqb_refl.
Qed.
End AddMolecule.

(** ** The invariant *)
Section Invariant.
Context {Quantity : Type}.
Implicit Types (T : Topology Quantity) (m : Molecule).

Lemma grouped_fold_shift (count : Molecule → Z)
    (refs : list (Molecule * list TopologyMolecule)) (a : Z) :
  fold_left (λ n (entry : Molecule * list TopologyMolecule),
               n + count entry.1 * Z.of_nat (length entry.2)) refs a
  = a + fold_left (λ n (entry : Molecule * list TopologyMolecule),
                     n + count entry.1 * Z.of_nat (length entry.2)) refs 0.
Proof.
  revert a. induction refs as [|e refs IH]; intros a; simpl; [lia|].
  rewrite IH, (IH (0 + _)). lia.
Qed.

Lemma n_grouped_found (count : Molecule → Z) T
    (pre post : list (Molecule * list TopologyMolecule)) (r r' : Molecule)
    (insts : list TopologyMolecule) (x : TopologyMolecule) :
  _reference_molecule_to_topology_molecules T = pre ++ (r, insts) :: post →
  Topology.n_grouped count
    (with_instance T (pre ++ (r, insts ++ [x]) :: post) r')
  = Topology.n_grouped count T + count r.
Proof.
  intros Hrefs. unfold Topology.n_grouped. rewrite Hrefs. simpl.
  rewrite !fold_left_app. simpl.
  rewrite grouped_fold_shift. symmetry. rewrite grouped_fold_shift.
  rewrite length_app. simpl. lia.
Qed.

Lemma n_grouped_new (count : Molecule → Z) T (m r' : Molecule)
    (x : TopologyMolecule) :
  Topology.n_grouped count
    (with_instance T (_reference_molecule_to_topology_molecules T ++ [(m, [x])]) r')
  = Topology.n_grouped count T + count m.
Proof.
  unfold Topology.n_grouped. simpl. rewrite fold_left_app. simpl. lia.
Qed.

Lemma instances_of_with_instance T
    (refs : list (Molecule * list TopologyMolecule)) (r k : Molecule) :
  instances_of (with_instance T refs r) k
  = instances_of T k ++ (if Molecule.eqb r k then [new_instance T r] else []).
Proof. unfold instances_of. simpl. by rewrite List.filter_app. Qed.

Lemma molecule_eqb_false (a b : Molecule) :
  to_smiles a ≠ to_smiles b → Molecule.eqb a b = false.
Proof. intros H. unfold Molecule.eqb. by apply String.eqb_neq. Qed.

Lemma molecule_eqb_true (a b : Molecule) :
  to_smiles a = to_smiles b → Molecule.eqb a b = true.
Proof. intros H. unfold Molecule.eqb. by apply String.eqb_eq. Qed.

Lemma instances_of_unknown T m :
  Forall (λ instance, _reference_molecule instance ∈ Topology.reference_molecules T)
         (_topology_molecules T) →
  Forall (λ e : Molecule * list TopologyMolecule, to_smiles e.1 ≠ to_smiles m)
         (_reference_molecule_to_topology_molecules T) →
  instances_of T m = [].
Proof.
  intros Hrefs Hall. unfold instances_of.
  induction Hrefs as [|tm tms Htm _ IH]; [done|]. simpl.
  rewrite molecule_eqb_false; [done|].
  unfold Topology.reference_molecules, od_keys in Htm.
  apply list_elem_of_fmap in Htm as (e & -> & He).
  rewrite Forall_forall in Hall. by apply Hall.
Qed.

Lemma sum_over_instances_snoc (count : TopologyMolecule → Z)
    (tms : list TopologyMolecule) (tm : TopologyMolecule) :
  sum_over_instances count (tms ++ [tm]) = sum_over_instances count tms + count tm.
Proof.
  induction tms as [|x tms IH]; unfold sum_over_instances in *; simpl; [lia|].
  rewrite IH. lia.
Qed.

Lemma inv_initialize : topology_inv (@Topology._initialize Quantity).
Proof.
  split; simpl; by try constructor.
Qed.

Lemma inv_ids_snoc T (r : Molecule) :
  topology_inv T →
  NoDup (tm_id <$> (_topology_molecules T ++ [new_instance T r]))
  ∧ Forall (λ instance, (tm_id instance < S (_next_id T))%nat)
           (_topology_molecules T ++ [new_instance T r]).
Proof.
  intros [Hids Hfresh _ _ _ _]. split.
  - rewrite fmap_app. apply NoDup_app. split; [done|]. split.
    + intros x Hx. simpl. rewrite list_elem_of_singleton. intros ->.
      apply list_elem_of_fmap in Hx as (tm & Heq & Htm).
      rewrite Forall_forall in Hfresh. specialize (Hfresh _ Htm). simpl in *. lia.
    + simpl. apply NoDup_singleton.
  - apply Forall_app. split.
    + eapply Forall_impl; [exact Hfresh|]. simpl. intros; lia.
    + repeat constructor.
Qed.

Lemma add_molecule_inv T m :
  topology_inv T → topology_inv (Topology.add_molecule T m).1.
Proof.
  intros HT. pose proof HT as [Hids Hfresh Hkeys Hrefs Hentries Hcounts].
  destruct (inv_ids_snoc T m HT) as [Hids_new Hfresh_new].
  destruct (add_molecule_cases T m)
    as [(r & pre & insts & post & Hsplit & Hr & Hpre & ->)|[Hall ->]]; simpl.
  - destruct (inv_ids_snoc T r HT) as [Hids_r Hfresh_r].
    assert (Hk : Topology.reference_molecules
                   (with_instance T (pre ++ (r, insts ++ [new_instance T r]) :: post) r)
                 = Topology.reference_molecules T).
    { unfold Topology.reference_molecules, od_keys. simpl.
      rewrite Hsplit, !fmap_app. done. }
    assert (Hrin : r ∈ Topology.reference_molecules T).
    { unfold Topology.reference_molecules, od_keys. rewrite Hsplit, fmap_app.
      apply elem_of_app. right. simpl. left. }
    split; simpl; try done.
    + by rewrite Hk.
    + rewrite Hk. apply Forall_app. split; [done|]. by repeat constructor.
    + rewrite Hsplit in Hentries.
      apply Forall_app in Hentries as [Hpre_e Hrest].
      apply Forall_cons in Hrest as [Hhead Hpost_e]. simpl in Hhead.
      unfold Topology.reference_molecules, od_keys in Hkeys.
      rewrite Hsplit, !fmap_app in Hkeys. simpl in Hkeys.
      apply NoDup_app in Hkeys as (_ & _ & Hnd).
      apply NoDup_cons in Hnd as [Hnotin _].
      apply Forall_app. split; [|apply Forall_cons; split].
      * rewrite Forall_forall in Hpre_e, Hpre. apply Forall_forall.
        intros e He. rewrite instances_of_with_instance.
        rewrite molecule_eqb_false, app_nil_r; [by apply Hpre_e|].
        rewrite Hr. intros Heq. by apply (Hpre e He).
      * simpl. rewrite instances_of_with_instance.
        rewrite molecule_eqb_true by done. by rewrite Hhead.
      * rewrite Forall_forall in Hpost_e. apply Forall_forall.
        intros e He. rewrite instances_of_with_instance.
        rewrite molecule_eqb_false, app_nil_r; [by apply Hpost_e|].
        intros Heq. apply Hnotin. rewrite Heq.
        apply list_elem_of_fmap. exists e.1. split; [done|].
        apply list_elem_of_fmap. by exists e.
    + intros count. rewrite (n_grouped_found count T pre post r r insts) by done.
      rewrite sum_over_instances_snoc, Hcounts. done.
  - assert (Hk : Topology.reference_molecules
                   (with_instance T
                      (_reference_molecule_to_topology_molecules T
                         ++ [(m, [new_instance T m])]) m)
                 = Topology.reference_molecules T ++ [m]).
    { unfold Topology.reference_molecules, od_keys. simpl.
      by rewrite fmap_app. }
    split; simpl; try done.
    + rewrite Hk, fmap_app. apply NoDup_app. split; [done|]. split.
      * intros s Hs. simpl. rewrite list_elem_of_singleton. intros ->.
        apply list_elem_of_fmap in Hs as (k & Heq & Hkin).
        unfold Topology.reference_molecules, od_keys in Hkin.
        apply list_elem_of_fmap in Hkin as (e & -> & He).
        rewrite Forall_forall in Hall. by apply (Hall e He).
      * simpl. apply NoDup_singleton.
    + rewrite Hk. apply Forall_app. split.
      * eapply Forall_impl; [exact Hrefs|]. simpl. intros tm Htm.
        apply elem_of_app. by left.
      * repeat constructor. simpl. apply elem_of_app. right. left.
    + apply Forall_app. split.
      * rewrite Forall_forall in Hentries, Hall. apply Forall_forall.
        intros e He. rewrite instances_of_with_instance.
        rewrite molecule_eqb_false, app_nil_r; [by apply Hentries|].
        intros Heq. by apply (Hall e He).
      * repeat constructor. simpl. rewrite instances_of_with_instance.
        rewrite molecule_eqb_true by done.
        by rewrite (instances_of_unknown T m Hrefs Hall).
    + intros count. rewrite n_grouped_new.
      rewrite sum_over_instances_snoc, Hcounts. done.
Qed.

Lemma fold_add_molecule_inv T (ms : list Molecule) :
  topology_inv T →
  topology_inv
    (fold_left (λ topology molecule, (Topology.add_molecule topology molecule).1)
               ms T).
Proof.
  revert T. induction ms as [|m ms IH]; intros T HT; simpl; [done|].
  apply IH. by apply add_molecule_inv.
Qed.

Lemma from_molecules_inv (ms : list Molecule) :
  topology_inv (@Topology.from_molecules Quantity ms).
Proof. apply fold_add_molecule_inv, inv_initialize. Qed.
End Invariant.

(** ** Counters and global lookups *)
Section Lookups.
Context {Quantity : Type}.
Implicit Types (T : Topology Quantity) (m : Molecule).
Local Abbreviation from_molecules := (@Topology.from_molecules Quantity).

(** C2: on a topology built by [add_molecule], each grouped counter (count
    per reference molecule times its number of instances, summed over the
    reference molecules) equals the direct sum over the instances. *)
Theorem grouped_counters_equal_instance_sums (ms : list Molecule) :
  Topology.n_atoms (from_molecules ms)
  = sum_over_instances TopologyMolecule.n_atoms
      (Topology.topology_molecules (from_molecules ms))
  ∧ Topology.n_bonds (from_molecules ms)
    = sum_over_instances TopologyMolecule.n_bonds
        (Topology.topology_molecules (from_molecules ms))
  ∧ Topology.n_particles (from_molecules ms)
    = sum_over_instances TopologyMolecule.n_particles
        (Topology.topology_molecules (from_molecules ms))
  ∧ Topology.n_virtual_sites (from_molecules ms)
    = sum_over_instances TopologyMolecule.n_virtual_sites
        (Topology.topology_molecules (from_molecules ms)).
Proof.
  pose proof (from_molecules_inv (Quantity:=Quantity) ms) as [_ _ _ _ _ Hcounts].
  repeat split; apply Hcounts.
Qed.

Lemma n_atoms_nonneg (tm : TopologyMolecule) : 0 <= TopologyMolecule.n_atoms tm.
Proof. unfold TopologyMolecule.n_atoms, Molecule.n_atoms. lia. Qed.

Lemma n_bonds_nonneg (tm : TopologyMolecule) : 0 <= TopologyMolecule.n_bonds tm.
Proof. unfold TopologyMolecule.n_bonds, Molecule.n_bonds. lia. Qed.

Lemma n_virtual_sites_nonneg (tm : TopologyMolecule) :
  0 <= TopologyMolecule.n_virtual_sites tm.
Proof.
  unfold TopologyMolecule.n_virtual_sites, Molecule.n_virtual_sites. lia.
Qed.

Lemma range_check (k n : Z) :
  negb ((0 <=? k) && (k <? n)) = false ↔ 0 <= k < n.
Proof.
  destruct (Z.leb_spec 0 k), (Z.ltb_spec k n); simpl; split; (done || lia).
Qed.

Lemma range_check_fails (k n : Z) :
  negb ((0 <=? k) && (k <? n)) = true ↔ k < 0 ∨ n <= k.
Proof.
  destruct (Z.leb_spec 0 k), (Z.ltb_spec k n); simpl; split; (done || lia).
Qed.

Lemma instance_not_before (pre post : list TopologyMolecule)
    (tm : TopologyMolecule) :
  NoDup (tm_id <$> (pre ++ tm :: post)) → tm_id tm ∉ tm_id <$> pre.
Proof.
  rewrite fmap_app. intros Hnd Hin.
  apply NoDup_app in Hnd as (_ & Hnot & _).
  apply (Hnot _ Hin). simpl. left.
Qed.

(** An in-range global atom index lands in the instance whose range holds
    it, at the local index counted from the start of that instance. *)
Lemma atom_in_range T (k : Z) :
  topology_inv T → 0 <= k < Topology.n_atoms T →
  ∃ pre tm post a,
    _topology_molecules T = pre ++ tm :: post
    ∧ Topology.atom T k = Ok (Some a)
    ∧ view_of tm (k - sum_over_instances TopologyMolecule.n_atoms pre) = Some a
    ∧ ta_topology_molecule a = tm
    ∧ molecule_atom_index (_atom a)
      = k - sum_over_instances TopologyMolecule.n_atoms pre
    ∧ TopologyMolecule.atom_start_topology_index T tm
      = Some (sum_over_instances TopologyMolecule.n_atoms pre).
Proof.
  intros HT Hk. pose proof HT as [Hids _ _ _ _ Hcounts].
  unfold Topology.atom. rewrite (proj2 (range_check _ _) Hk).
  unfold Topology.n_atoms in Hk. rewrite Hcounts in Hk.
  destruct (lookup_scan_in_range TopologyMolecule.n_atoms
              TopologyMolecule.atom (_topology_molecules T) k 0)
    as (pre & tm & post & Hsplit & H1 & H2 & ->); [done|].
  rewrite Z.add_0_l in *.
  destruct (topology_molecule_atom tm
              (k - sum_over_instances TopologyMolecule.n_atoms pre))
    as (a & Hview & Ha & Htm & Hidx); [lia|].
  exists pre, tm, post, a. rewrite Ha. repeat split; try done.
  unfold TopologyMolecule.atom_start_topology_index. rewrite Hsplit.
  rewrite start_topology_index_at, Z.add_0_l; [done|].
  apply (instance_not_before pre post). by rewrite <- Hsplit.
Qed.

Lemma bond_in_range T (k : Z) :
  topology_inv T → 0 <= k < Topology.n_bonds T →
  ∃ pre tm post b,
    _topology_molecules T = pre ++ tm :: post
    ∧ Topology.bond T k = Ok (Some b)
    ∧ tb_topology_molecule b = tm
    ∧ molecule_bond_index (_bond b)
      = k - sum_over_instances TopologyMolecule.n_bonds pre
    ∧ TopologyMolecule.bond_start_topology_index T tm
      = Some (sum_over_instances TopologyMolecule.n_bonds pre).
Proof.
  intros HT Hk. pose proof HT as [Hids _ _ _ _ Hcounts].
  unfold Topology.bond. rewrite (proj2 (range_check _ _) Hk).
  unfold Topology.n_bonds in Hk. rewrite Hcounts in Hk.
  destruct (lookup_scan_in_range TopologyMolecule.n_bonds
              TopologyMolecule.bond (_topology_molecules T) k 0)
    as (pre & tm & post & Hsplit & H1 & H2 & ->); [done|].
  rewrite Z.add_0_l in *.
  destruct (topology_molecule_bond tm
              (k - sum_over_instances TopologyMolecule.n_bonds pre))
    as (b & Hb & Htm & Hidx); [lia|].
  exists pre, tm, post, b. rewrite Hb. repeat split; try done.
  unfold TopologyMolecule.bond_start_topology_index. rewrite Hsplit.
  rewrite start_topology_index_at, Z.add_0_l; [done|].
  apply (instance_not_before pre post). by rewrite <- Hsplit.
Qed.

Lemma virtual_site_in_range T (k : Z) :
  topology_inv T → 0 <= k < Topology.n_virtual_sites T →
  ∃ pre tm post v,
    _topology_molecules T = pre ++ tm :: post
    ∧ Topology.virtual_site T k = Ok (Some v)
    ∧ tv_topology_molecule v = tm
    ∧ molecule_virtual_site_index (_virtual_site v)
      = k - sum_over_instances TopologyMolecule.n_virtual_sites pre
    ∧ TopologyMolecule.virtual_site_start_topology_index T tm
      = Some (sum_over_instances TopologyMolecule.n_virtual_sites pre).
Proof.
  intros HT Hk. pose proof HT as [Hids _ _ _ _ Hcounts].
  unfold Topology.virtual_site. rewrite (proj2 (range_check _ _) Hk).
  unfold Topology.n_virtual_sites in Hk. rewrite Hcounts in Hk.
  destruct (lookup_scan_in_range TopologyMolecule.n_virtual_sites
              TopologyMolecule.virtual_site (_topology_molecules T) k 0)
    as (pre & tm & post & Hsplit & H1 & H2 & ->); [done|].
  rewrite Z.add_0_l in *.
  destruct (topology_molecule_virtual_site tm
              (k - sum_over_instances TopologyMolecule.n_virtual_sites pre))
    as (v & Hv & Htm & Hidx); [lia|].
  exists pre, tm, post, v. rewrite Hv. repeat split; try done.
  unfold TopologyMolecule.virtual_site_start_topology_index. rewrite Hsplit.
  rewrite start_topology_index_at, Z.add_0_l; [done|].
  apply (instance_not_before pre post). by rewrite <- Hsplit.
Qed.

(** C1: on a topology built by [add_molecule], the atom found at a valid
    global index [k] has [topology_atom_index] equal to [k]. *)
Theorem atom_topology_atom_index_roundtrip (ms : list Molecule) (k : Z) :
  0 <= k < Topology.n_atoms (from_molecules ms) →
  ∃ a, Topology.atom (from_molecules ms) k = Ok (Some a)
       ∧ TopologyAtom.topology_atom_index (from_molecules ms) a = Ok k.
Proof.
  intros Hk.
  destruct (atom_in_range _ k (from_molecules_inv ms) Hk)
    as (pre & tm & post & a & _ & Ha & _ & Htm & Hidx & Hstart).
  exists a. split; [done|].
  unfold TopologyAtom.topology_atom_index. rewrite Htm, Hstart, Hidx. simpl.
  f_equal. lia.
Qed.

(** C9: on a topology built by [add_molecule], [atom], [bond] and
    [virtual_site] fail their assertion exactly when the index is negative
    or not below the corresponding count; for an index in range the scan
    returns a view, never falling off the end of the loop. *)
Theorem global_lookups_range_checked (ms : list Molecule) (k : Z) :
  (Topology.atom (from_molecules ms) k = Raise AssertionError
   ↔ k < 0 ∨ Topology.n_atoms (from_molecules ms) <= k)
  ∧ (0 <= k < Topology.n_atoms (from_molecules ms) →
     ∃ a, Topology.atom (from_molecules ms) k = Ok (Some a))
  ∧ (Topology.bond (from_molecules ms) k = Raise AssertionError
     ↔ k < 0 ∨ Topology.n_bonds (from_molecules ms) <= k)
  ∧ (0 <= k < Topology.n_bonds (from_molecules ms) →
     ∃ b, Topology.bond (from_molecules ms) k = Ok (Some b))
  ∧ (Topology.virtual_site (from_molecules ms) k = Raise AssertionError
     ↔ k < 0 ∨ Topology.n_virtual_sites (from_molecules ms) <= k)
  ∧ (0 <= k < Topology.n_virtual_sites (from_molecules ms) →
     ∃ v, Topology.virtual_site (from_molecules ms) k = Ok (Some v)).
Proof.
  pose proof (from_molecules_inv (Quantity:=Quantity) ms) as HT.
  assert (Ha : 0 <= k < Topology.n_atoms (from_molecules ms) →
               ∃ a, Topology.atom (from_molecules ms) k = Ok (Some a)).
  { intros Hk. destruct (atom_in_range _ k HT Hk)
      as (? & ? & ? & a & _ & Ha & _). by exists a. }
  assert (Hb : 0 <= k < Topology.n_bonds (from_molecules ms) →
               ∃ b, Topology.bond (from_molecules ms) k = Ok (Some b)).
  { intros Hk. destruct (bond_in_range _ k HT Hk)
      as (? & ? & ? & b & _ & Hb & _). by exists b. }
  assert (Hv : 0 <= k < Topology.n_virtual_sites (from_molecules ms) →
               ∃ v, Topology.virtual_site (from_molecules ms) k = Ok (Some v)).
  { intros Hk. destruct (virtual_site_in_range _ k HT Hk)
      as (? & ? & ? & v & _ & Hv & _). by exists v. }
  repeat split; try done.
  - intros Hr.
    destruct (decide (0 <= k < Topology.n_atoms (from_molecules ms)))
      as [Hin|Hout]; [|lia].
    destruct (Ha Hin) as [a Heq]. congruence.
  - intros Hout. unfold Topology.atom.
    by rewrite (proj2 (range_check_fails _ _) Hout).
  - intros Hr.
    destruct (decide (0 <= k < Topology.n_bonds (from_molecules ms)))
      as [Hin|Hout]; [|lia].
    destruct (Hb Hin) as [b Heq]. congruence.
  - intros Hout. unfold Topology.bond.
    by rewrite (proj2 (range_check_fails _ _) Hout).
  - intros Hr.
    destruct (decide (0 <= k < Topology.n_virtual_sites (from_molecules ms)))
      as [Hin|Hout]; [|lia].
    destruct (Hv Hin) as [v Heq]. congruence.
  - intros Hout. unfold Topology.virtual_site.
    by rewrite (proj2 (range_check_fails _ _) Hout).
Qed.
End Lookups.

(** ** Deduplication *)
Section Deduplication.
Context {Quantity : Type}.
Implicit Types (T : Topology Quantity) (m : Molecule).

Lemma add_molecules_cons T m (ms : list Molecule) :
  Topology.add_molecules T (m :: ms)
  = ((Topology.add_molecules (Topology.add_molecule T m).1 ms).1,
     (Topology.add_molecule T m).2
       :: (Topology.add_molecules (Topology.add_molecule T m).1 ms).2).
Proof.
  simpl. destruct (Topology.add_molecule T m) as [T1 index]. simpl.
  by destruct (Topology.add_molecules T1 ms).
Qed.

Lemma add_molecules_fold T (ms : list Molecule) :
  (Topology.add_molecules T ms).1
  = fold_left (λ topology molecule, (Topology.add_molecule topology molecule).1)
              ms T.
Proof.
  revert T. induction ms as [|m ms IH]; intros T; [done|].
  rewrite add_molecules_cons. simpl. apply IH.
Qed.

(** A molecule whose fingerprint is that of the only reference molecule
    becomes one more instance of it. *)
Lemma add_molecule_known T (r0 m : Molecule) (insts : list TopologyMolecule) :
  _reference_molecule_to_topology_molecules T = [(r0, insts)] →
  to_smiles m = to_smiles r0 →
  Topology.add_molecule T m
  = (with_instance T [(r0, insts ++ [new_instance T r0])] r0,
     Z.of_nat (length (_topology_molecules T)) + 1).
Proof.
  intros Hrefs Hm.
  destruct (add_molecule_cases T m)
    as [(r & pre & insts' & post & Hsplit & Hr & Hpre & ->)|[Hall _]].
  - rewrite Hrefs in Hsplit. destruct pre as [|e pre].
    + simpl in Hsplit. by simplify_eq.
    + simpl in Hsplit. injection Hsplit as _ Hnil.
      by destruct pre.
  - rewrite Hrefs in Hall. apply Forall_cons in Hall as [Hne _]. simpl in Hne.
    congruence.
Qed.

Lemma add_molecule_first m :
  Topology.add_molecule (@Topology.__init__ Quantity) m
  = (with_instance Topology.__init__
       [(m, [new_instance (@Topology.__init__ Quantity) m])] m, 1).
Proof.
  destruct (add_molecule_cases (@Topology.__init__ Quantity) m)
    as [(r & pre & insts' & post & Hsplit & _)|[_ ->]]; [|done].
  simpl in Hsplit. by destruct pre.
Qed.

Lemma add_molecules_same_fingerprint T (r0 : Molecule)
    (insts : list TopologyMolecule) (ms : list Molecule) :
  _reference_molecule_to_topology_molecules T = [(r0, insts)] →
  Forall (λ m', to_smiles m' = to_smiles r0) ms →
  (∃ insts', _reference_molecule_to_topology_molecules
               (Topology.add_molecules T ms).1 = [(r0, insts')])
  ∧ length (_topology_molecules (Topology.add_molecules T ms).1)
    = (length (_topology_molecules T) + length ms)%nat
  ∧ (Topology.add_molecules T ms).2
    = Z.of_nat <$> seq (S (length (_topology_molecules T))) (length ms).
Proof.
  intros Hrefs Hms. revert T insts Hrefs.
  induction Hms as [|m ms Hm _ IH]; intros T insts Hrefs.
  - simpl. split; [by exists insts|]. split; [lia|done].
  - rewrite add_molecules_cons, (add_molecule_known T r0 m insts) by done.
    cbn [fst snd].
    destruct (IH (with_instance T [(r0, insts ++ [new_instance T r0])] r0)
                (insts ++ [new_instance T r0]) eq_refl)
      as (Hrefs' & Hlen & Hidx).
    split; [done|]. simpl in Hlen, Hidx. rewrite length_app in Hlen, Hidx.
    simpl in Hlen, Hidx. split.
    + simpl. lia.
    + rewrite Hidx. cbn [length seq fmap list_fmap]. f_equal; [lia|].
      by replace (length (_topology_molecules T) + 1)%nat
        with (S (length (_topology_molecules T))) by lia.
Qed.

(** C3: adding molecules that all have the fingerprint of the first one to
    a fresh topology leaves one reference molecule and as many instances
    as calls, and the i-th call returns i. *)
Theorem same_fingerprint_added_N_times (m : Molecule) (ms : list Molecule) :
  Forall (λ m', to_smiles m' = to_smiles m) ms →
  Topology.n_reference_molecules
    (Topology.add_molecules (@Topology.__init__ Quantity) (m :: ms)).1 = 1
  ∧ Topology.n_molecules
      (Topology.add_molecules (@Topology.__init__ Quantity) (m :: ms)).1
    = Z.of_nat (length (m :: ms))
  ∧ (Topology.add_molecules (@Topology.__init__ Quantity) (m :: ms)).2
    = Z.of_nat <$> seq 1 (length (m :: ms))
  ∧ Topology.reference_molecules
      (Topology.add_molecules (@Topology.__init__ Quantity) (m :: ms)).1
    = [FrozenMolecule m].
Proof.
  intros Hms. rewrite add_molecules_cons, add_molecule_first. cbn [fst snd].
  destruct (add_molecules_same_fingerprint
              (with_instance Topology.__init__
                 [(m, [new_instance (@Topology.__init__ Quantity) m])] m)
              m [new_instance (@Topology.__init__ Quantity) m] ms eq_refl Hms)
    as ([insts' Hrefs] & Hlen & Hidx).
  unfold Topology.n_reference_molecules, Topology.reference_molecules,
    Topology.n_molecules, od_keys.
  rewrite Hrefs, Hlen, Hidx. simpl. repeat split; try done; lia.
Qed.
End Deduplication.

(** ** Chemical-environment matching *)
Section MatchingFacts.
Context {Quantity : Type}.
Variable matches : Molecule → string → list (list Z).
Implicit Types (T : Topology Quantity) (m : Molecule).
Local Abbreviation from_molecules := (@Topology.from_molecules Quantity).

(** The lookup scan at a known instance. *)
Lemma lookup_scan_at {View : Type} (count : TopologyMolecule → Z)
    (get : TopologyMolecule → Z → result View)
    (pre post : list TopologyMolecule) (tm : TopologyMolecule) (start i : Z) :
  (∀ x, 0 <= count x) → 0 <= i < count tm →
  Topology.lookup_scan count get (pre ++ tm :: post)
    (start + sum_over_instances count pre + i) start start
  = (v ← get tm i; Ok (Some v)).
Proof.
  intros Hnn Hi. revert start. induction pre as [|x pre IH]; intros start.
  - cbn [app Topology.lookup_scan sum_over_instances foldr]. cbv zeta.
    destruct (Z.gtb_spec (start + count tm) (start + 0 + i)); [|lia].
    by replace (start + 0 + i - start) with i by lia.
  - change (sum_over_instances count (x :: pre))
      with (count x + sum_over_instances count pre).
    cbn [app Topology.lookup_scan]. cbv zeta.
    pose proof (sum_over_instances_nonneg count Hnn pre).
    destruct (Z.gtb_spec (start + count x)
                (start + (count x + sum_over_instances count pre) + i)); [lia|].
    replace (start + (count x + sum_over_instances count pre) + i)
      with (start + count x + sum_over_instances count pre + i) by lia.
    apply IH.
Qed.

Lemma atom_at_instance T (pre post : list TopologyMolecule)
    (tm : TopologyMolecule) (i : Z) :
  topology_inv T → _topology_molecules T = pre ++ tm :: post →
  0 <= i < TopologyMolecule.n_atoms tm →
  TopologyMolecule.atom_start_topology_index T tm
  = Some (sum_over_instances TopologyMolecule.n_atoms pre)
  ∧ Topology.atom T (sum_over_instances TopologyMolecule.n_atoms pre + i)
    = Ok (view_of tm i)
  ∧ ∃ a, view_of tm i = Some a
         ∧ ta_topology_molecule a = tm
         ∧ TopologyAtom.topology_atom_index T a
           = Ok (sum_over_instances TopologyMolecule.n_atoms pre + i).
Proof.
  intros HT Hsplit Hi. pose proof HT as [Hids _ _ _ _ Hcounts].
  assert (Hstart : TopologyMolecule.atom_start_topology_index T tm
                   = Some (sum_over_instances TopologyMolecule.n_atoms pre)).
  { unfold TopologyMolecule.atom_start_topology_index. rewrite Hsplit.
    rewrite start_topology_index_at, Z.add_0_l; [done|].
    apply (instance_not_before pre post). by rewrite <- Hsplit. }
  destruct (topology_molecule_atom tm i Hi) as (a & Hview & Ha & Htm & Hidx).
  split; [done|]. split.
  - unfold Topology.atom.
    assert (Hin : 0 <= sum_over_instances TopologyMolecule.n_atoms pre + i
                  < Topology.n_atoms T).
    { unfold Topology.n_atoms. rewrite Hcounts.
      change (sum_over_instances
                (λ instance, Molecule.n_atoms (_reference_molecule instance))
                (_topology_molecules T))
        with (sum_over_instances TopologyMolecule.n_atoms (_topology_molecules T)).
      rewrite Hsplit, sum_over_instances_app.
      change (sum_over_instances TopologyMolecule.n_atoms (tm :: post))
        with (TopologyMolecule.n_atoms tm
              + sum_over_instances TopologyMolecule.n_atoms post).
      pose proof (sum_over_instances_nonneg _ n_atoms_nonneg pre).
      pose proof (sum_over_instances_nonneg _ n_atoms_nonneg post). lia. }
    rewrite (proj2 (range_check _ _) Hin), Hsplit.
    rewrite <- (Z.add_0_l (sum_over_instances TopologyMolecule.n_atoms pre)).
    rewrite lookup_scan_at by (apply n_atoms_nonneg || done).
    by rewrite Ha, Hview.
  - exists a. split; [done|]. split; [done|].
    unfold TopologyAtom.topology_atom_index. rewrite Htm, Hstart, Hidx. done.
Qed.

Lemma unroll_match_instance T (tm : TopologyMolecule) (rm : list Z) :
  topology_inv T → tm ∈ _topology_molecules T →
  Forall (λ i, 0 <= i < TopologyMolecule.n_atoms tm) rm →
  Topology.unroll_match T tm rm = Ok (view_of tm <$> rm).
Proof.
  intros HT Hin Hrm. apply list_elem_of_split in Hin as (pre & post & Hsplit).
  unfold Topology.unroll_match. apply mapM_Ok.
  eapply Forall_impl; [exact Hrm|]. intros i Hi. simpl in Hi.
  destruct (atom_at_instance T pre post tm i HT Hsplit Hi)
    as (Hstart & Hatom & _).
  rewrite Hstart. simpl. exact Hatom.
Qed.

Lemma key_of_fingerprint (keys : list Molecule) (a b : Molecule) :
  NoDup (to_smiles <$> keys) → a ∈ keys → b ∈ keys →
  to_smiles a = to_smiles b → a = b.
Proof.
  induction keys as [|k keys IH]; intros Hnd Ha Hb Heq.
  - by apply elem_of_nil in Ha.
  - rewrite fmap_cons in Hnd. apply NoDup_cons in Hnd as [Hk Hnd].
    apply elem_of_cons in Ha as [->|Ha], Hb as [->|Hb]; try done.
    + exfalso. apply Hk. rewrite Heq. by apply list_elem_of_fmap_2.
    + exfalso. apply Hk. rewrite <- Heq. by apply list_elem_of_fmap_2.
    + by apply IH.
Qed.

(** An instance listed under a key is in the topology and has that very
    key as its reference molecule. *)
Lemma instance_of_key T (ref_mol : Molecule) (tm : TopologyMolecule) :
  topology_inv T → ref_mol ∈ Topology.reference_molecules T →
  tm ∈ instances_of T ref_mol →
  tm ∈ _topology_molecules T ∧ _reference_molecule tm = ref_mol.
Proof.
  intros [_ _ Hkeys Hrefs _ _] Hkey Htm. unfold instances_of in Htm.
  apply list_elem_of_In, List.filter_In in Htm as [Hin Heqb].
  apply list_elem_of_In in Hin. split; [done|].
  rewrite Forall_forall in Hrefs.
  apply (key_of_fingerprint _ _ _ Hkeys (Hrefs _ Hin) Hkey).
  by apply String.eqb_eq.
Qed.

Lemma chemical_environment_matches_expected T (q : query) (smarts : string) :
  topology_inv T →
  q = QueryStr smarts ∨ q = QueryChemicalEnvironment {| as_smarts := smarts |} →
  Forall (λ ref_mol,
            Forall (Forall (λ i, 0 <= i < Molecule.n_atoms ref_mol))
                   (matches ref_mol smarts))
         (Topology.reference_molecules T) →
  Topology.chemical_environment_matches matches T q
  = Ok (expected_matches matches T smarts).
Proof.
  intros HT Hq Hvalid. pose proof HT as [_ _ _ _ Hentries _].
  unfold Topology.chemical_environment_matches.
  assert (Hs : match q with
               | QueryStr smarts => Ok smarts
               | QueryChemicalEnvironment environment => Ok (as_smarts environment)
               | QueryOther => Raise ValueError
               end = Ok smarts) by (by destruct Hq as [->| ->]).
  rewrite Hs, bind_Ok.
  rewrite (mapM_Ok _
             (λ entry : Molecule * list TopologyMolecule,
                concat
                  ((λ reference_match : list Z,
                      (λ instance, view_of instance <$> reference_match)
                        <$> instances_of T entry.1)
                     <$> matches entry.1 smarts))).
  - rewrite bind_Ok. unfold expected_matches, Topology.reference_molecules,
      od_keys. by rewrite <- list_fmap_compose.
  - apply Forall_forall. intros entry Hentry.
    assert (Hkey : entry.1 ∈ Topology.reference_molecules T).
    { unfold Topology.reference_molecules, od_keys.
      by apply list_elem_of_fmap_2. }
    rewrite Forall_forall in Hentries. rewrite (Hentries _ Hentry).
    rewrite Forall_forall in Hvalid. specialize (Hvalid _ Hkey).
    rewrite (mapM_Ok _
               (λ reference_match : list Z,
                  (λ instance, view_of instance <$> reference_match)
                    <$> instances_of T entry.1)); [done|].
    eapply Forall_impl; [exact Hvalid|]. intros rm Hrm. simpl in Hrm.
    apply mapM_Ok. apply Forall_forall. intros tm Htm.
    destruct (instance_of_key T entry.1 tm HT Hkey Htm) as [Hin Href].
    apply unroll_match_instance; try done.
    unfold TopologyMolecule.n_atoms. by rewrite Href.
Qed.

Lemma expected_view_indices T (ref_mol : Molecule) (rm : list Z)
    (tm : TopologyMolecule) :
  topology_inv T → ref_mol ∈ Topology.reference_molecules T →
  tm ∈ instances_of T ref_mol →
  Forall (λ i, 0 <= i < Molecule.n_atoms ref_mol) rm →
  ∃ start,
    TopologyMolecule.atom_start_topology_index T tm = Some start
    ∧ Forall (λ i, ∃ a, view_of tm i = Some a
                        ∧ ta_topology_molecule a = tm
                        ∧ molecule_atom_index (_atom a) = i
                        ∧ TopologyAtom.topology_atom_index T a = Ok (start + i))
             rm.
Proof.
  intros HT Hkey Htm Hrm.
  destruct (instance_of_key T ref_mol tm HT Hkey Htm) as [Hin Href].
  apply list_elem_of_split in Hin as (pre & post & Hsplit).
  exists (sum_over_instances TopologyMolecule.n_atoms pre). split.
  - pose proof HT as [Hids _ _ _ _ _].
    unfold TopologyMolecule.atom_start_topology_index. rewrite Hsplit.
    rewrite start_topology_index_at, Z.add_0_l; [done|].
    apply (instance_not_before pre post). by rewrite <- Hsplit.
  - eapply Forall_impl; [exact Hrm|]. intros i Hi. simpl in Hi.
    assert (Hi' : 0 <= i < TopologyMolecule.n_atoms tm).
    { unfold TopologyMolecule.n_atoms. by rewrite Href. }
    destruct (atom_at_instance T pre post tm i HT Hsplit Hi')
      as (_ & _ & a & Hview & Htma & Hidx).
    exists a. repeat split; try done.
    destruct (topology_molecule_atom tm i Hi') as (a' & Hview' & _ & _ & ?).
    congruence.
Qed.
End MatchingFacts.

Section MatchingTheorem.
Context {Quantity : Type}.
Variable matches : Molecule → string → list (list Z).
Local Abbreviation from_molecules := (@Topology.from_molecules Quantity).

Lemma three_instances (m : Molecule) :
  from_molecules [m; m; m]
  = {| _constrained_atom_pairs := ∅;
       _reference_molecule_to_topology_molecules :=
         [(m, [ {| tm_id := 0; _reference_molecule := m |};
                {| tm_id := 1; _reference_molecule := m |};
                {| tm_id := 2; _reference_molecule := m |} ])];
       _topology_molecules :=
         [ {| tm_id := 0; _reference_molecule := m |};
           {| tm_id := 1; _reference_molecule := m |};
           {| tm_id := 2; _reference_molecule := m |} ];
       _next_id := 3 |}.
Proof.
  unfold Topology.from_molecules. cbn [fold_left].
  rewrite add_molecule_first. cbn [fst].
  set (T1 := with_instance (@Topology.__init__ Quantity)
               [(m, [new_instance (@Topology.__init__ Quantity) m])] m).
  rewrite (add_molecule_known T1 m m
             [new_instance (@Topology.__init__ Quantity) m] eq_refl eq_refl).
  cbn [fst].
  set (T2 := with_instance T1
               [(m, [new_instance (@Topology.__init__ Quantity) m]
                      ++ [new_instance T1 m])] m).
  rewrite (add_molecule_known T2 m m
             ([new_instance (@Topology.__init__ Quantity) m]
                ++ [new_instance T1 m]) eq_refl eq_refl).
  reflexivity.
Qed.

Lemma length_concat_triples {A B : Type} (f g h : A → B) (l : list A) :
  Z.of_nat (length (concat ((λ x, [f x; g x; h x]) <$> l)))
  = 3 * Z.of_nat (length l).
Proof.
  induction l as [|x l IH]; [done|].
  rewrite fmap_cons. cbn [concat]. rewrite length_app. cbn [length]. lia.
Qed.

(** C4: on a topology built by [add_molecule], for a pattern query and
    matches whose indices are atoms of their reference molecule,
    [chemical_environment_matches] returns the tuples grouped by reference
    molecule (in [reference_molecules] order), then by match (in the order
    the molecule returned them), then by instance (in insertion order);
    the view at local index [i] of an instance has global index
    [atom_start_topology_index + i]. With three instances of one molecule
    the result has three tuples per match, one per instance. *)
Theorem chemical_environment_matches_unrolls (q : query) (smarts : string)
    (ms : list Molecule) (m : Molecule) :
  q = QueryStr smarts ∨ q = QueryChemicalEnvironment {| as_smarts := smarts |} →
  Forall (λ ref_mol,
            Forall (Forall (λ i, 0 <= i < Molecule.n_atoms ref_mol))
                   (matches ref_mol smarts))
         (Topology.reference_molecules (from_molecules ms)) →
  Forall (Forall (λ i, 0 <= i < Molecule.n_atoms m)) (matches m smarts) →
  Topology.chemical_environment_matches matches (from_molecules ms) q
  = Ok (expected_matches matches (from_molecules ms) smarts)
  ∧ Forall
      (λ ref_mol,
         Forall
           (λ reference_match,
              Forall
                (λ instance,
                   ∃ start,
                     TopologyMolecule.atom_start_topology_index
                       (from_molecules ms) instance = Some start
                     ∧ Forall
                         (λ i, ∃ a,
                            view_of instance i = Some a
                            ∧ ta_topology_molecule a = instance
                            ∧ molecule_atom_index (_atom a) = i
                            ∧ TopologyAtom.topology_atom_index
                                (from_molecules ms) a = Ok (start + i))
                         reference_match)
                (instances_of (from_molecules ms) ref_mol))
           (matches ref_mol smarts))
      (Topology.reference_molecules (from_molecules ms))
  ∧ Topology.chemical_environment_matches matches (from_molecules [m; m; m]) q
    = Ok (concat
            ((λ reference_match : list Z,
                [ view_of {| tm_id := 0; _reference_molecule := m |}
                    <$> reference_match;
                  view_of {| tm_id := 1; _reference_molecule := m |}
                    <$> reference_match;
                  view_of {| tm_id := 2; _reference_molecule := m |}
                    <$> reference_match ])
               <$> matches m smarts))
  ∧ Z.of_nat
      (length
         (concat
            ((λ reference_match : list Z,
                [ view_of {| tm_id := 0; _reference_molecule := m |}
                    <$> reference_match;
                  view_of {| tm_id := 1; _reference_molecule := m |}
                    <$> reference_match;
                  view_of {| tm_id := 2; _reference_molecule := m |}
                    <$> reference_match ])
               <$> matches m smarts)))
    = 3 * Z.of_nat (length (matches m smarts)).
Proof.
  intros Hq Hvalid Hm.
  pose proof (from_molecules_inv (Quantity:=Quantity) ms) as HT.
  split; [by apply chemical_environment_matches_expected|].
  split.
  { apply Forall_forall. intros ref_mol Hkey.
    rewrite Forall_forall in Hvalid. specialize (Hvalid _ Hkey).
    eapply Forall_impl; [exact Hvalid|]. intros rm Hrm. simpl in Hrm.
    apply Forall_forall. intros tm Htm.
    by apply (expected_view_indices (from_molecules ms) ref_mol). }
  split; [|apply length_concat_triples].
  pose proof (from_molecules_inv (Quantity:=Quantity) [m; m; m]) as HT3.
  rewrite (chemical_environment_matches_expected matches _ q smarts HT3 Hq).
  - rewrite three_instances. unfold expected_matches, instances_of,
      Topology.reference_molecules, od_keys. simpl.
    unfold Molecule.eqb. rewrite String.eqb_refl. simpl.
    by rewrite app_nil_r.
  - rewrite three_instances. unfold Topology.reference_molecules, od_keys.
    simpl. by repeat constructor.
Qed.
End MatchingTheorem.

(** ** Import from OpenMM *)
Section FromOpenMMFacts.
Context {Quantity : Type}.
Variable connected_component_subgraphs : Graph → list Graph.
Variable is_isomorphic : Graph → Graph → bool → bool.

Lemma od_set_keys_Forall {K V : Type} (keq : K → K → bool) (P : K → Prop)
    (d : list (K * V)) (k : K) (v : V) :
  Forall (λ e, P e.1) d → P k → Forall (λ e, P e.1) (od_set keq d k v).
Proof.
  intros Hd Hk. induction Hd as [|[k0 v0] d H0 Hd IH]; simpl.
  - by repeat constructor.
  - destruct (keq k0 k); by constructor.
Qed.

(** The graph built for the membership test is a new object: no key of the
    dictionary is that object. *)
Lemma new_graph_is_no_key (graph_to_unq_mol : list (Graph * Molecule))
    (unq_mol : Molecule) (next_graph_id : nat) :
  Forall (λ e, (graph_id e.1 < next_graph_id)%nat) graph_to_unq_mol →
  existsb (λ key, graph_is key (to_networkx unq_mol next_graph_id))
          (od_keys graph_to_unq_mol) = false.
Proof.
  induction 1 as [|[g u] d Hg _ IH]; [done|]. simpl in *.
  rewrite IH, orb_false_r. unfold graph_is. simpl.
  apply Nat.eqb_neq. lia.
Qed.

(** With graph objects compared by identity the conversion loop never
    raises. *)
Lemma convert_unique_mols_never_raises (unique_molecules : list Molecule)
    (graph_to_unq_mol : list (Graph * Molecule)) (next_graph_id : nat) :
  Forall (λ e, (graph_id e.1 < next_graph_id)%nat) graph_to_unq_mol →
  ∃ converted,
    Topology.convert_unique_mols graph_is unique_molecules graph_to_unq_mol
      next_graph_id = Ok converted.
Proof.
  revert graph_to_unq_mol next_graph_id.
  induction unique_molecules as [|unq_mol rest IH]; intros d next Hd.
  - by exists d.
  - cbn [Topology.convert_unique_mols]. cbv zeta.
    rewrite new_graph_is_no_key by done.
    apply IH.
    apply (od_set_keys_Forall graph_is (λ g, (graph_id g < S (S next))%nat)).
    + eapply Forall_impl; [exact Hd|]. simpl. intros; lia.
    + simpl. lia.
Qed.

Lemma match_components_outcome (topology : Topology Quantity)
    (graph_to_unq_mol : list (Graph * Molecule)) (has_bond_orders : bool)
    (components : list Graph) :
  Topology.match_components is_isomorphic topology graph_to_unq_mol
    has_bond_orders components
  ≠ Raise (Exception indistinguishable_graphs).
Proof.
  revert topology. induction components as [|G rest IH]; intros topology.
  - done.
  - cbn [Topology.match_components].
    destruct (List.find _ graph_to_unq_mol); [apply IH|done].
Qed.

(** C6 fails on the code: two candidates with the same atoms and bonds
    have graphs that hold the same nodes and edges, yet the conversion loop
    accepts both and [from_openmm] never raises the
    indistinguishable-graphs condition. *)
Theorem from_openmm_accepts_indistinguishable_candidates
    (openmm_topology : OpenMMTopology) (unq_mol : Molecule) (name : string)
    (rest : list Molecule) :
  graph_same_content (to_networkx unq_mol 0)
                     (to_networkx (same_graph_as unq_mol name) 2) = true
  ∧ (∃ graph_to_unq_mol,
       Topology.convert_unique_mols graph_is
         (unq_mol :: same_graph_as unq_mol name :: rest) [] 0
       = Ok graph_to_unq_mol)
  ∧ @Topology.from_openmm Quantity graph_is connected_component_subgraphs
      is_isomorphic openmm_topology
      (Some (unq_mol :: same_graph_as unq_mol name :: rest))
    ≠ Raise (Exception indistinguishable_graphs).
Proof.
  split; [by apply bool_decide_eq_true|].
  destruct (convert_unique_mols_never_raises
              (unq_mol :: same_graph_as unq_mol name :: rest) [] 0)
    as [converted Hconv]; [constructor|].
  split; [by exists converted|].
  unfold Topology.from_openmm. cbv zeta. rewrite bind_Ok, Hconv, bind_Ok.
  apply match_components_outcome.
Qed.
End FromOpenMMFacts.

(** ** The properties at example inputs *)

(** With the content of the graphs as key equality the second candidate
    is rejected. *)
Example from_openmm_rejects_by_content :
  @Topology.from_openmm Z graph_same_content one_component same_listing
    {| omm_atoms := [(0, 8); (1, 1); (2, 1)];
       omm_bonds := [(0, 1, None); (0, 2, None)] |}
    (Some [water; same_graph_as water "[OH2]"])
  = Raise (Exception indistinguishable_graphs).
Proof. reflexivity. Qed.

(** With graph objects compared by identity both candidates are kept and
    the import returns a topology. *)
Example from_openmm_keeps_both_candidates :
  Topology.n_molecules <$>
    match @Topology.from_openmm Z graph_is one_component same_listing
            {| omm_atoms := [(0, 8); (1, 1); (2, 1)];
               omm_bonds := [(0, 1, None); (0, 2, None)] |}
            (Some [water; same_graph_as water "[OH2]"]) with
    | Ok topology => Some topology
    | Raise _ => None
    end
  = Some 1.
Proof. reflexivity. Qed.

Lemma atom_topology_atom_index_roundtrip_witness :
  0 <= 4 < Topology.n_atoms (@Topology.from_molecules Z [water; ethanol; water])
  ∧ ∃ a, Topology.atom (@Topology.from_molecules Z [water; ethanol; water]) 4
         = Ok (Some a)
         ∧ TopologyAtom.topology_atom_index
             (@Topology.from_molecules Z [water; ethanol; water]) a = Ok 4.
Proof.
  assert (H : 0 <= 4 < Topology.n_atoms
                         (@Topology.from_molecules Z [water; ethanol; water])).
  { change (0 <= 4 < 9). lia. }
  split; [exact H|].
  exact (atom_topology_atom_index_roundtrip [water; ethanol; water] 4 H).
Defined.

Lemma same_fingerprint_added_N_times_witness :
  Forall (λ m', to_smiles m' = to_smiles water) [water; water]
  ∧ Topology.n_reference_molecules
      (Topology.add_molecules (@Topology.__init__ Z) [water; water; water]).1 = 1
  ∧ Topology.n_molecules
      (Topology.add_molecules (@Topology.__init__ Z) [water; water; water]).1 = 3
  ∧ (Topology.add_molecules (@Topology.__init__ Z) [water; water; water]).2
    = [1; 2; 3].
Proof.
  assert (H : Forall (λ m', to_smiles m' = to_smiles water) [water; water])
    by (repeat constructor).
  split; [exact H|].
  destruct (same_fingerprint_added_N_times (Quantity:=Z) water [water; water] H)
    as (H1 & H2 & H3 & _).
  split; [exact H1|]. split; [exact H2|exact H3].
Defined.

Lemma chemical_environment_matches_unrolls_witness :
  Forall (λ ref_mol,
            Forall (Forall (λ i, 0 <= i < Molecule.n_atoms ref_mol))
                   (first_two_atoms ref_mol "[*:1]~[*:2]"))
         (Topology.reference_molecules
            (@Topology.from_molecules Z [water; ethanol; water]))
  ∧ Topology.chemical_environment_matches first_two_atoms
      (@Topology.from_molecules Z [water; ethanol; water])
      (QueryStr "[*:1]~[*:2]")
    = Ok (expected_matches first_two_atoms
            (@Topology.from_molecules Z [water; ethanol; water]) "[*:1]~[*:2]")
  ∧ length
      (expected_matches first_two_atoms
         (@Topology.from_molecules Z [water; water; water]) "[*:1]~[*:2]")
    = 6%nat.
Proof.
  assert (Hvalid :
    Forall (λ ref_mol,
              Forall (Forall (λ i, 0 <= i < Molecule.n_atoms ref_mol))
                     (first_two_atoms ref_mol "[*:1]~[*:2]"))
           (Topology.reference_molecules
              (@Topology.from_molecules Z [water; ethanol; water]))).
  { change (Topology.reference_molecules
              (@Topology.from_molecules Z [water; ethanol; water]))
      with [water; ethanol].
    repeat first [apply Forall_nil | apply Forall_cons; split];
      split; by vm_compute. }
  assert (Hm : Forall (Forall (λ i, 0 <= i < Molecule.n_atoms water))
                      (first_two_atoms water "[*:1]~[*:2]")).
  { repeat first [apply Forall_nil | apply Forall_cons; split];
      split; by vm_compute. }
  split; [exact Hvalid|].
  destruct (chemical_environment_matches_unrolls (Quantity:=Z) first_two_atoms
              (QueryStr "[*:1]~[*:2]") "[*:1]~[*:2]"
              [water; ethanol; water] water (or_introl eq_refl) Hvalid Hm)
    as (H1 & _ & _ & _).
  split; [exact H1|reflexivity].
Defined.

Lemma global_lookups_range_checked_witness :
  0 <= 1 < Topology.n_bonds (@Topology.from_molecules Z [water; ethanol; water])
  ∧ (∃ b, Topology.bond (@Topology.from_molecules Z [water; ethanol; water]) 1
          = Ok (Some b))
  ∧ Topology.atom (@Topology.from_molecules Z [water; ethanol; water]) 9
    = Raise AssertionError.
Proof.
  assert (H : 0 <= 1 < Topology.n_bonds
                         (@Topology.from_molecules Z [water; ethanol; water])).
  { change (0 <= 1 < 6). lia. }
  assert (Hout : 9 < 0 ∨ Topology.n_atoms
                           (@Topology.from_molecules Z [water; ethanol; water])
                         <= 9).
  { right. change (9 <= 9). lia. }
  destruct (global_lookups_range_checked (Quantity:=Z)
              [water; ethanol; water] 1) as (_ & _ & _ & Hb & _).
  destruct (global_lookups_range_checked (Quantity:=Z)
              [water; ethanol; water] 9) as ([_ Ha] & _).
  split; [exact H|]. split; [exact (Hb H)|exact (Ha Hout)].
Defined.

(** C5 as first stated fails: on a pair that already has a distance,
    [add_constraint(0, 1, True)] raises, the map is as it was, and
    [is_constrained(0, 1)] returns the distance and not [True]. So it is not
    the case that after every such call [is_constrained] returns [True]. *)
Lemma add_constraint_True_over_distance_counterexample :
  Topology.add_constraint constrained_at_distance 0 1 PyTrue
  = (constrained_at_distance,
     Raise (Exception already_constrained_with_distance))
  ∧ Topology.is_constrained
      (Topology.add_constraint constrained_at_distance 0 1 PyTrue).1 0 1
    = PyQuantity 3
  ∧ ¬ (∀ (T : Topology Z) (i j : Z),
         Topology.is_constrained (Topology.add_constraint T i j PyTrue).1 i j
         = PyTrue).
Proof.
  assert (Hstored : _constrained_atom_pairs constrained_at_distance !! (0, 1)
                    = Some (PyQuantity 3)).
  { unfold constrained_at_distance. rewrite add_constraint_quantity. simpl.
    by rewrite lookup_insert_ne, lookup_insert_eq. }
  assert (Hcall : Topology.add_constraint constrained_at_distance 0 1 PyTrue
                  = (constrained_at_distance,
                     Raise (Exception already_constrained_with_distance))).
  { unfold Topology.add_constraint. by rewrite Hstored. }
  assert (Hanswer : Topology.is_constrained
                      (Topology.add_constraint constrained_at_distance 0 1
                         PyTrue).1 0 1
                    = PyQuantity 3).
  { rewrite Hcall. unfold Topology.is_constrained. simpl. by rewrite Hstored. }
  split; [exact Hcall|]. split; [exact Hanswer|].
  intros Hall. specialize (Hall constrained_at_distance 0 1).
  rewrite Hanswer in Hall. discriminate Hall.
Qed.

Lemma add_constraint_False_on_unconstrained_pair_witness :
  _constrained_atom_pairs (@Topology.__init__ Z) !! (0, 1) = None
  ∧ _constrained_atom_pairs (@Topology.__init__ Z) !! (1, 0) = None
  ∧ ∃ T',
      Topology.add_constraint (@Topology.__init__ Z) 0 1 PyFalse = (T', Ok ())
      ∧ Topology.is_constrained T' 0 1 = PyFalse
      ∧ (0, 1) ∈ dom (Topology.constrained_atom_pairs T').
Proof.
  assert (H1 : _constrained_atom_pairs (@Topology.__init__ Z) !! (0, 1) = None)
    by reflexivity.
  assert (H2 : _constrained_atom_pairs (@Topology.__init__ Z) !! (1, 0) = None)
    by reflexivity.
  split; [exact H1|]. split; [exact H2|].
  destruct (add_constraint_False_on_unconstrained_pair
              (@Topology.__init__ Z) 0 1 H1 H2)
    as (T' & Hcall & _ & _ & _ & _ & Hc & _ & Hdom & _).
  exists T'. split; [exact Hcall|]. split; [exact Hc|exact Hdom].
Defined.

(** * Further properties of the dictionaries *)
Section TransformedDictFacts.
Context {V : Type}.
Implicit Types (d : list (list Z * V)) (k c : list Z).

Lemma tuple_eqb_true k c : tuple_eqb k c = true ↔ k = c.
Proof. unfold tuple_eqb. apply bool_decide_eq_true. Qed.

Lemma tuple_eqb_false k c : tuple_eqb k c = false ↔ k ≠ c.
Proof. unfold tuple_eqb. apply bool_decide_eq_false. Qed.

Lemma od_get_set_same d c (v : V) :
  od_get tuple_eqb (od_set tuple_eqb d c v) c = Some v.
Proof.
  induction d as [|[k0 v0] d IH]; simpl.
  - by rewrite (proj2 (tuple_eqb_true c c) eq_refl).
  - destruct (tuple_eqb k0 c) eqn:Hk; simpl; by rewrite Hk.
Qed.

Lemma od_get_set_other d c c2 (v : V) :
  c2 ≠ c → od_get tuple_eqb (od_set tuple_eqb d c v) c2 = od_get tuple_eqb d c2.
Proof.
  intros Hne. induction d as [|[k0 v0] d IH]; simpl.
  - by rewrite (proj2 (tuple_eqb_false c c2)).
  - destruct (tuple_eqb k0 c) eqn:Hk; simpl.
    + apply tuple_eqb_true in Hk as ->.
      by rewrite (proj2 (tuple_eqb_false c c2)).
    + by rewrite IH.
Qed.

Lemma od_set_length d c (v : V) :
  length (od_set tuple_eqb d c v)
  = match od_get tuple_eqb d c with
    | Some _ => length d
    | None => S (length d)
    end.
Proof.
  induction d as [|[k0 v0] d IH]; simpl; [done|].
  destruct (tuple_eqb k0 c); simpl; [done|]. rewrite IH.
  by destruct (od_get tuple_eqb d c).
Qed.

Lemma od_keys_cons (k0 : list Z) (v0 : V) d :
  od_keys ((k0, v0) :: d) = k0 :: od_keys d.
Proof. reflexivity. Qed.

Lemma od_get_None_keys d c : od_get tuple_eqb d c = None ↔ c ∉ od_keys d.
Proof.
  induction d as [|[k0 v0] d IH].
  - split; [intros _; apply not_elem_of_nil|done].
  - rewrite od_keys_cons, not_elem_of_cons. cbn [od_get].
    destruct (tuple_eqb k0 c) eqn:Hk.
    + apply tuple_eqb_true in Hk as ->. split; [done|]. by intros [? _].
    + apply tuple_eqb_false in Hk. rewrite IH. split; [|by intros [_ ?]].
      intros ?. split; [congruence|done].
Qed.

Lemma od_set_keys d c (v : V) :
  od_keys (od_set tuple_eqb d c v)
  = match od_get tuple_eqb d c with
    | Some _ => od_keys d
    | None => od_keys d ++ [c]
    end.
Proof.
  induction d as [|[k0 v0] d IH]; [done|]. cbn [od_get od_set].
  destruct (tuple_eqb k0 c) eqn:Hk; [done|].
  rewrite !od_keys_cons, IH.
  by destruct (od_get tuple_eqb d c).
Qed.

Lemma od_del_keys_subseteq d c : od_keys (od_del tuple_eqb d c) ⊆ od_keys d.
Proof.
  induction d as [|[k0 v0] d IH]; [done|]. cbn [od_del].
  destruct (tuple_eqb k0 c); rewrite !od_keys_cons.
  - intros x Hx. by right.
  - intros x Hx. apply elem_of_cons in Hx as [->|Hx]; [left|right; by apply IH].
Qed.

Lemma od_del_keys_NoDup d c :
  NoDup (od_keys d) → NoDup (od_keys (od_del tuple_eqb d c)).
Proof.
  induction d as [|[k0 v0] d IH]; [done|]. cbn [od_del].
  rewrite od_keys_cons. intros Hnd.
  apply NoDup_cons in Hnd as [Hk0 Hnd].
  destruct (tuple_eqb k0 c); [done|]. rewrite od_keys_cons.
  apply NoDup_cons. split; [|by apply IH].
  intros Hin. apply Hk0. by apply (od_del_keys_subseteq d c).
Qed.

Lemma od_get_del_same d c :
  NoDup (od_keys d) → od_get tuple_eqb (od_del tuple_eqb d c) c = None.
Proof.
  induction d as [|[k0 v0] d IH]; [done|]. cbn [od_del].
  rewrite od_keys_cons. intros Hnd.
  apply NoDup_cons in Hnd as [Hk0 Hnd].
  destruct (tuple_eqb k0 c) eqn:Hk.
  - apply tuple_eqb_true in Hk as ->. by apply od_get_None_keys.
  - cbn [od_get]. rewrite Hk. by apply IH.
Qed.

Lemma od_get_del_other d c c2 :
  c2 ≠ c → od_get tuple_eqb (od_del tuple_eqb d c) c2 = od_get tuple_eqb d c2.
Proof.
  intros Hne. induction d as [|[k0 v0] d IH]; simpl; [done|].
  destruct (tuple_eqb k0 c) eqn:Hk; simpl.
  - apply tuple_eqb_true in Hk as ->.
    by rewrite (proj2 (tuple_eqb_false c c2)).
  - by rewrite IH.
Qed.

Lemma od_del_length d c (v : V) :
  od_get tuple_eqb d c = Some v →
  S (length (od_del tuple_eqb d c)) = length d.
Proof.
  induction d as [|[k0 v0] d IH]; simpl; [done|].
  destruct (tuple_eqb k0 c); simpl; [done|]. intros H. by rewrite IH.
Qed.

(** X1: storing under a key and reading under any key with the same
    canonical form returns the stored value; entries under other canonical
    keys are not touched; the length grows by one exactly when the
    canonical key was absent; the stored keys stay pairwise distinct. *)
Theorem transformed_dict_set_then_get (kt : list Z → result (list Z)) d
    (key key' key2 c c2 : list Z) (v : V) :
  kt key = Ok c → kt key' = Ok c → kt key2 = Ok c2 → c2 ≠ c →
  NoDup (_TransformedDict.__iter__ d) →
  ∃ d',
    _TransformedDict.__setitem__ kt d key v = Ok d'
    ∧ _TransformedDict.__getitem__ kt d' key' = Ok v
    ∧ _TransformedDict.__getitem__ kt d' key2
      = _TransformedDict.__getitem__ kt d key2
    ∧ _TransformedDict.__len__ d'
      = match od_get tuple_eqb d c with
        | Some _ => _TransformedDict.__len__ d
        | None => _TransformedDict.__len__ d + 1
        end
    ∧ NoDup (_TransformedDict.__iter__ d').
Proof.
  intros Hk Hk' Hk2 Hne Hnd. exists (od_set tuple_eqb d c v).
  unfold _TransformedDict.__setitem__, _TransformedDict.__getitem__,
    _TransformedDict.__len__, _TransformedDict.__iter__ in *.
  rewrite Hk, Hk', Hk2. simpl.
  rewrite od_get_set_same, od_get_set_other, od_set_length, od_set_keys by done.
  repeat split; try done.
  - destruct (od_get tuple_eqb d c); lia.
  - destruct (od_get tuple_eqb d c) eqn:Hget; [done|].
    apply NoDup_app. split; [done|]. split; [|apply NoDup_singleton].
    intros x Hx Hin. apply list_elem_of_singleton in Hin as ->.
    by apply od_get_None_keys in Hget.
Qed.

(** X2: deleting a stored key removes its entry: reading it afterwards
    raises [KeyError], the length drops by one, other entries are not
    touched and the keys stay distinct; deleting or reading a key that is
    not stored raises [KeyError]. *)
Theorem transformed_dict_delete (kt : list Z → result (list Z)) d
    (key key2 c c2 : list Z) :
  kt key = Ok c → kt key2 = Ok c2 → c2 ≠ c →
  NoDup (_TransformedDict.__iter__ d) →
  match od_get tuple_eqb d c with
  | Some _ =>
      ∃ d',
        _TransformedDict.__delitem__ kt d key = Ok d'
        ∧ _TransformedDict.__getitem__ kt d' key = Raise KeyError
        ∧ _TransformedDict.__delitem__ kt d' key = Raise KeyError
        ∧ _TransformedDict.__getitem__ kt d' key2
          = _TransformedDict.__getitem__ kt d key2
        ∧ _TransformedDict.__len__ d' + 1 = _TransformedDict.__len__ d
        ∧ NoDup (_TransformedDict.__iter__ d')
  | None =>
      _TransformedDict.__delitem__ kt d key = Raise KeyError
      ∧ _TransformedDict.__getitem__ kt d key = Raise KeyError
  end.
Proof.
  intros Hk Hk2 Hne Hnd.
  unfold _TransformedDict.__delitem__, _TransformedDict.__getitem__,
    _TransformedDict.__len__, _TransformedDict.__iter__ in *.
  rewrite Hk, Hk2. simpl.
  destruct (od_get tuple_eqb d c) as [v|] eqn:Hget; [|done].
  exists (od_del tuple_eqb d c).
  rewrite od_get_del_same, od_get_del_other by done.
  repeat split; try done.
  - rewrite <- (od_del_length d c v Hget). lia.
  - by apply od_del_keys_NoDup.
Qed.
End TransformedDictFacts.

Lemma transformed_dict_set_then_get_witness :
  ∃ d', ValenceDict.__setitem__ [([1; 3], 7)] [3; 1] 9 = Ok d'
        ∧ ValenceDict.__getitem__ d' [1; 3] = Ok 9.
Proof.
  destruct (transformed_dict_set_then_get (V:=Z) ValenceDict.__keytransform__
              [([1; 3], 7)] [3; 1] [1; 3] [1; 2] [1; 3] [1; 2] 9
              eq_refl eq_refl eq_refl)
    as (d' & H1 & H2 & _).
  - discriminate.
  - apply NoDup_singleton.
  - exists d'. split; [exact H1|exact H2].
Defined.

Lemma transformed_dict_delete_witness :
  ∃ d', ImproperDict.__delitem__ [([1; 2; 5; 7], 4)] [7; 2; 1; 5] = Ok d'
        ∧ ImproperDict.__getitem__ d' [7; 2; 1; 5] = Raise KeyError.
Proof.
  pose proof (transformed_dict_delete (V:=Z) ImproperDict.__keytransform__
                [([1; 2; 5; 7], 4)] [7; 2; 1; 5] [1; 2; 3; 4]
                [1; 2; 5; 7] [1; 2; 3; 4] eq_refl eq_refl) as H.
  simpl in H. destruct H as (d' & H1 & H2 & _).
  - discriminate.
  - apply NoDup_singleton.
  - exists d'. split; [exact H1|exact H2].
Defined.

Lemma improper_keytransform_short (key : list Z) :
  (length key < 4)%nat → ImproperDict.__keytransform__ key = Raise IndexError.
Proof.
  intros Hlen. destruct key as [|a [|b [|c [|e key]]]]; try done.
  simpl in Hlen. lia.
Qed.

(** X3: an empty tuple makes every [ValenceDict] operation raise
    [IndexError]; a tuple with fewer than four indices makes
    [ImproperDict.__keytransform__] raise [IndexError], and of a longer
    tuple only the first four indices are used. *)
Theorem keytransform_short_and_long_tuples :
  ValenceDict.__keytransform__ [] = Raise IndexError
  ∧ (∀ (V : Type) (d : list (list Z * V)) (v : V),
       ValenceDict.__getitem__ d [] = Raise IndexError
       ∧ ValenceDict.__setitem__ d [] v = Raise IndexError
       ∧ ValenceDict.__delitem__ d [] = Raise IndexError)
  ∧ ImproperDict.__keytransform__ [] = Raise IndexError
  ∧ (∀ a : Z, ImproperDict.__keytransform__ [a] = Raise IndexError)
  ∧ (∀ a b : Z, ImproperDict.__keytransform__ [a; b] = Raise IndexError)
  ∧ (∀ a b c : Z, ImproperDict.__keytransform__ [a; b; c] = Raise IndexError)
  ∧ (∀ (a0 center a2 a3 : Z) (tail : list Z),
       ImproperDict.__keytransform__ (a0 :: center :: a2 :: a3 :: tail)
       = ImproperDict.__keytransform__ [a0; center; a2; a3]).
Proof.
  repeat split; try (intros; by apply improper_keytransform_short).
  intros a0 center a2 a3 tail.
  destruct (improper_keytransform_sorted a0 center a2 a3 tail)
    as (s0 & s1 & s2 & Hs & ->).
  destruct (improper_keytransform_sorted a0 center a2 a3 [])
    as (t0 & t1 & t2 & Ht & ->).
  rewrite Hs in Ht. by simplify_eq.
Qed.

Lemma valence_canonical_is_fixed (key c : list Z) :
  ValenceDict.__keytransform__ key = Ok c → ValenceDict.__keytransform__ c = Ok c.
Proof.
  destruct key as [|a0 rest]; [done|].
  rewrite valence_keytransform_nonempty. intros Hc.
  assert (c = if a0 >? List.last (a0 :: rest) a0 then reverse (a0 :: rest)
              else a0 :: rest) as -> by congruence.
  clear Hc.
  destruct (decide (rest = [])) as [->|Hne].
  - simpl. destruct (Z.gtb_spec a0 a0); [lia|].
    rewrite valence_keytransform_nonempty. simpl.
    destruct (Z.gtb_spec a0 a0); [lia|done].
  - destruct (exists_last Hne) as (mid & an & ->).
    assert (Hlast : ∀ (x y : Z) (l : list Z),
               List.last (x :: l ++ [y]) x = y).
    { intros x y l. by rewrite (app_comm_cons l [y] x), List.last_last. }
    rewrite Hlast.
    destruct (Z.gtb_spec a0 an) as [Hgt|Hle].
    + rewrite reverse_cons, reverse_app, reverse_singleton.
      change ([an] ++ reverse mid) with (an :: reverse mid).
      rewrite <- app_comm_cons, valence_keytransform_nonempty, Hlast.
      destruct (Z.gtb_spec an a0); [lia|done].
    + rewrite valence_keytransform_nonempty, Hlast.
      destruct (Z.gtb_spec a0 an); [lia|done].
Qed.

Lemma py_sort_of_sorted (l : list Z) : StronglySorted Z.le l → py_sort l = l.
Proof.
  intros Hl. apply (StronglySorted_unique Z.le); try done.
  - apply py_sort_sorted.
  - apply py_sort_perm.
Qed.

Lemma improper_canonical_is_fixed (key c : list Z) :
  ImproperDict.__keytransform__ key = Ok c →
  ImproperDict.__keytransform__ c = Ok c.
Proof.
  destruct key as [|a0 [|center [|a2 [|a3 tail]]]]; try done.
  destruct (improper_keytransform_sorted a0 center a2 a3 tail)
    as (s0 & s1 & s2 & Hs & ->).
  intros [= <-].
  destruct (improper_keytransform_sorted s0 center s1 s2 [])
    as (t0 & t1 & t2 & Ht & ->).
  rewrite py_sort_of_sorted in Ht; [by simplify_eq|].
  rewrite <- Hs. apply py_sort_sorted.
Qed.

(** X4: a canonical key is its own canonical key, in both dictionaries: the
    keys a dictionary stores and hands out when iterated address their own
    entries. *)
Theorem canonical_key_is_fixed (key c : list Z) :
  (ValenceDict.__keytransform__ key = Ok c →
   ValenceDict.__keytransform__ c = Ok c)
  ∧ (ImproperDict.__keytransform__ key = Ok c →
     ImproperDict.__keytransform__ c = Ok c).
Proof.
  split; [apply valence_canonical_is_fixed|apply improper_canonical_is_fixed].
Qed.

Lemma canonical_key_is_fixed_witness :
  ValenceDict.__keytransform__ [1; 2; 3] = Ok [1; 2; 3]
  ∧ ImproperDict.__keytransform__ [1; 2; 5; 7] = Ok [1; 2; 5; 7].
Proof.
  split.
  - exact (proj1 (canonical_key_is_fixed [3; 2; 1] [1; 2; 3]) eq_refl).
  - exact (proj2 (canonical_key_is_fixed [5; 2; 7; 1] [1; 2; 5; 7]) eq_refl).
Defined.

(** * Further properties of the global indices *)
Section MoreLookups.
Context {Quantity : Type}.
Implicit Types (T : Topology Quantity) (m : Molecule).
Local Abbreviation from_molecules := (@Topology.from_molecules Quantity).

(** X5: on a topology built by [add_molecule], the bond found at a valid
    global bond index has that [topology_bond_index], and the virtual site
    found at a valid global index has that [topology_virtual_site_index]. *)
Theorem bond_and_virtual_site_index_roundtrip (ms : list Molecule) (k : Z) :
  (0 <= k < Topology.n_bonds (from_molecules ms) →
   ∃ b, Topology.bond (from_molecules ms) k = Ok (Some b)
        ∧ TopologyBond.topology_bond_index (from_molecules ms) b = Ok k)
  ∧ (0 <= k < Topology.n_virtual_sites (from_molecules ms) →
     ∃ v, Topology.virtual_site (from_molecules ms) k = Ok (Some v)
          ∧ TopologyVirtualSite.topology_virtual_site_index (from_molecules ms) v
            = Ok k).
Proof.
  split; intros Hk.
  - destruct (bond_in_range _ k (from_molecules_inv ms) Hk)
      as (pre & tm & post & b & _ & Hb & Htm & Hidx & Hstart).
    exists b. split; [done|].
    unfold TopologyBond.topology_bond_index. rewrite Htm, Hstart, Hidx. simpl.
    f_equal. lia.
  - destruct (virtual_site_in_range _ k (from_molecules_inv ms) Hk)
      as (pre & tm & post & v & _ & Hv & Htm & Hidx & Hstart).
    exists v. split; [done|].
    unfold TopologyVirtualSite.topology_virtual_site_index.
    rewrite Htm, Hstart, Hidx. simpl. f_equal. lia.
Qed.






(** X7: the start index of an instance is the sum of the counts of the
    instances before it, for atoms, bonds, particles and virtual sites
    alike; for an object that is not an instance of the topology the start
    index is [None] and [topology_atom_index] raises [TypeError]. *)
Theorem start_index_is_sum_of_preceding (ms : list Molecule) (p : nat)
    (tm other : TopologyMolecule) (a : Atom) :
  (_topology_molecules (from_molecules ms) !! p = Some tm →
   TopologyMolecule.atom_start_topology_index (from_molecules ms) tm
   = Some (sum_over_instances TopologyMolecule.n_atoms
             (take p (_topology_molecules (from_molecules ms))))
   ∧ TopologyMolecule.bond_start_topology_index (from_molecules ms) tm
     = Some (sum_over_instances TopologyMolecule.n_bonds
               (take p (_topology_molecules (from_molecules ms))))
   ∧ TopologyMolecule.particle_start_topology_index (from_molecules ms) tm
     = Some (sum_over_instances TopologyMolecule.n_particles
               (take p (_topology_molecules (from_molecules ms))))
   ∧ TopologyMolecule.virtual_site_start_topology_index (from_molecules ms) tm
     = Some (sum_over_instances TopologyMolecule.n_virtual_sites
               (take p (_topology_molecules (from_molecules ms)))))
  ∧ (tm_id other ∉ tm_id <$> _topology_molecules (from_molecules ms) →
     TopologyMolecule.atom_start_topology_index (from_molecules ms) other = None
     ∧ TopologyAtom.topology_atom_index (from_molecules ms)
         {| _atom := a; ta_topology_molecule := other |}
       = Raise TypeError).
Proof.
  split.
  - intros Hp.
    pose proof (from_molecules_inv (Quantity:=Quantity) ms) as [Hids _ _ _ _ _].
    pose proof (take_drop_middle _ _ _ Hp) as Hsplit.
    assert (Hnot : tm_id tm
                   ∉ tm_id <$> take p (_topology_molecules (from_molecules ms))).
    { apply (instance_not_before _
               (drop (S p) (_topology_molecules (from_molecules ms)))).
      by rewrite Hsplit. }
    unfold TopologyMolecule.atom_start_topology_index,
      TopologyMolecule.bond_start_topology_index,
      TopologyMolecule.particle_start_topology_index,
      TopologyMolecule.virtual_site_start_topology_index.
    rewrite <- Hsplit at 1 3 5 7.
    rewrite !start_topology_index_at by done. by rewrite !Z.add_0_l.
  - intros Hnot.
    assert (Hnone : ∀ (tms : list TopologyMolecule) (acc : Z),
               tm_id other ∉ tm_id <$> tms →
               TopologyMolecule.start_topology_index TopologyMolecule.n_atoms
                 other tms acc = None).
    { induction tms as [|x tms IH]; intros acc Hx; [done|].
      rewrite fmap_cons, not_elem_of_cons in Hx. destruct Hx as [Hne Hx].
      simpl. unfold TopologyMolecule.eqb at 1.
      destruct (Nat.eqb_spec (tm_id other) (tm_id x)); [done|]. by apply IH. }
    unfold TopologyAtom.topology_atom_index,
      TopologyMolecule.atom_start_topology_index. simpl.
    by rewrite Hnone.
Qed.
End MoreLookups.

(** * Further properties of [add_molecule] *)
Section MoreAddMolecule.
Context {Quantity : Type}.
Implicit Types (T : Topology Quantity) (m : Molecule).
Local Abbreviation from_molecules := (@Topology.from_molecules Quantity).

Lemma from_molecules_snoc (ms : list Molecule) m :
  from_molecules (ms ++ [m]) = (Topology.add_molecule (from_molecules ms) m).1.
Proof. unfold Topology.from_molecules. by rewrite fold_left_app. Qed.

(** What a call leaves, whichever branch it takes. *)
Lemma add_molecule_shape T m :
  ∃ r refs,
    Topology.add_molecule T m
    = (with_instance T refs r, Z.of_nat (length (_topology_molecules T)) + 1)
    ∧ to_smiles r = to_smiles m
    ∧ ((od_keys refs = Topology.reference_molecules T
        ∧ r ∈ Topology.reference_molecules T)
       ∨ (od_keys refs = Topology.reference_molecules T ++ [m]
          ∧ r = m
          ∧ Forall (λ k, to_smiles k ≠ to_smiles m)
                   (Topology.reference_molecules T))).
Proof.
  destruct (add_molecule_cases T m)
    as [(r & pre & insts & post & Hsplit & Hr & Hpre & ->)|[Hall ->]].
  - eexists r, _. split; [done|]. split; [done|]. left.
    unfold Topology.reference_molecules, od_keys. rewrite Hsplit, !fmap_app.
    split; [done|]. apply elem_of_app. right. left.
  - eexists m, _. split; [done|]. split; [done|]. right.
    unfold Topology.reference_molecules, od_keys. rewrite fmap_app.
    split; [done|]. split; [done|]. by apply Forall_fmap.
Qed.

Lemma atom_of_prefix (tms extra : list TopologyMolecule) (k : Z) :
  0 <= k < sum_over_instances TopologyMolecule.n_atoms tms →
  Topology.lookup_scan TopologyMolecule.n_atoms TopologyMolecule.atom
    (tms ++ extra) k 0 0
  = Topology.lookup_scan TopologyMolecule.n_atoms TopologyMolecule.atom
      tms k 0 0.
Proof.
  intros Hk.
  destruct (lookup_scan_in_range TopologyMolecule.n_atoms TopologyMolecule.atom
              tms k 0) as (pre & tm & post & -> & H1 & H2 & ->); [lia|].
  rewrite <- app_assoc, <- app_comm_cons.
  replace k with (0 + sum_over_instances TopologyMolecule.n_atoms pre
                  + (k - sum_over_instances TopologyMolecule.n_atoms pre))
    at 1 by lia.
  rewrite lookup_scan_at by (apply n_atoms_nonneg || lia).
  by rewrite Z.add_0_l.
Qed.

(** X8: a call of [add_molecule] appends one instance and returns the new
    number of instances; every counter grows by the count of the reference
    molecule the instance uses, whose fingerprint is that of the molecule;
    the global atom indices that were valid before the call still find the
    same atoms, and the atoms of the new instance start at the old
    [n_atoms]; the reference molecules known before keep their order. On
    any topology at all, whatever constraints it holds, the call leaves the
    constraint map as it was, so [is_constrained] answers as before. *)
Theorem add_molecule_appends (ms : list Molecule) (m : Molecule) :
  from_molecules (ms ++ [m]) = (Topology.add_molecule (from_molecules ms) m).1
  ∧ (Topology.add_molecule (from_molecules ms) m).2
    = Topology.n_molecules (from_molecules (ms ++ [m]))
  ∧ Topology.n_molecules (from_molecules (ms ++ [m]))
    = Topology.n_molecules (from_molecules ms) + 1
  ∧ (∃ r,
       _topology_molecules (from_molecules (ms ++ [m]))
       = _topology_molecules (from_molecules ms)
           ++ [new_instance (from_molecules ms) r]
       ∧ to_smiles r = to_smiles m
       ∧ r ∈ Topology.reference_molecules (from_molecules (ms ++ [m]))
       ∧ Topology.n_atoms (from_molecules (ms ++ [m]))
         = Topology.n_atoms (from_molecules ms) + Molecule.n_atoms r
       ∧ Topology.n_bonds (from_molecules (ms ++ [m]))
         = Topology.n_bonds (from_molecules ms) + Molecule.n_bonds r
       ∧ Topology.n_particles (from_molecules (ms ++ [m]))
         = Topology.n_particles (from_molecules ms) + Molecule.n_particles r
       ∧ Topology.n_virtual_sites (from_molecules (ms ++ [m]))
         = Topology.n_virtual_sites (from_molecules ms)
           + Molecule.n_virtual_sites r
       ∧ TopologyMolecule.atom_start_topology_index (from_molecules (ms ++ [m]))
           (new_instance (from_molecules ms) r)
         = Some (Topology.n_atoms (from_molecules ms)))
  ∧ (∀ k, 0 <= k < Topology.n_atoms (from_molecules ms) →
          Topology.atom (from_molecules (ms ++ [m])) k
          = Topology.atom (from_molecules ms) k)
  ∧ (∀ T (a b : Z),
       _constrained_atom_pairs (Topology.add_molecule T m).1
       = _constrained_atom_pairs T
       ∧ Topology.is_constrained (Topology.add_molecule T m).1 a b
         = Topology.is_constrained T a b)
  ∧ Topology.reference_molecules (from_molecules ms)
      `prefix_of` Topology.reference_molecules (from_molecules (ms ++ [m])).
Proof.
  split; [apply from_molecules_snoc|].
  pose proof (from_molecules_inv (Quantity:=Quantity) ms) as HT.
  pose proof (from_molecules_inv (Quantity:=Quantity) (ms ++ [m])) as HT'.
  rewrite from_molecules_snoc in *.
  destruct (add_molecule_shape (from_molecules ms) m)
    as (r & refs & Heq & Hr & Hkeys).
  rewrite Heq in *. cbn [fst snd] in *.
  pose proof HT as [_ _ _ _ _ Hc].
  pose proof HT' as [Hids' _ _ _ _ Hc'].
  assert (Hgrow : ∀ count : Molecule → Z,
             Topology.n_grouped count
               (with_instance (from_molecules ms) refs r)
             = Topology.n_grouped count (from_molecules ms) + count r).
  { intros count. rewrite Hc', Hc. simpl. by rewrite sum_over_instances_snoc. }
  split; [|split; [|split; [|split; [|split]]]].
  - unfold Topology.n_molecules. simpl. rewrite length_app. simpl. lia.
  - unfold Topology.n_molecules. simpl. rewrite length_app. simpl. lia.
  - exists r. split; [done|]. split; [done|]. split.
    { unfold Topology.reference_molecules at 1. simpl.
      destruct Hkeys as [[-> Hin]|(-> & -> & _)]; [done|].
      apply elem_of_app. right. left. }
    repeat split; try apply Hgrow.
    unfold TopologyMolecule.atom_start_topology_index. simpl.
    rewrite start_topology_index_at, Z.add_0_l.
    + unfold Topology.n_atoms. by rewrite Hc.
    + apply (instance_not_before _ []). exact Hids'.
  - intros k Hk. unfold Topology.atom.
    assert (Hk' : 0 <= k < Topology.n_atoms
                              (with_instance (from_molecules ms) refs r)).
    { unfold Topology.n_atoms in *. rewrite Hgrow.
      assert (0 <= Molecule.n_atoms r) by (unfold Molecule.n_atoms; lia).
      lia. }
    rewrite (proj2 (range_check _ _) Hk), (proj2 (range_check _ _) Hk').
    simpl. apply atom_of_prefix.
    unfold Topology.n_atoms in Hk. by rewrite Hc in Hk.
  - intros T a b.
    destruct (add_molecule_shape T m) as (r' & refs' & -> & _ & _).
    split; [done|]. unfold Topology.is_constrained. done.
  - unfold Topology.reference_molecules at 2. simpl.
    destruct Hkeys as [[-> _]|(-> & _ & _)]; [done|].
    by apply prefix_app_r.
Qed.

Lemma find_app_first {A : Type} (p : A → bool) (l l' : list A) (x : A) :
  List.find p l = Some x → List.find p (l ++ l') = Some x.
Proof.
  induction l as [|y l IH]; simpl; [done|]. by destruct (p y).
Qed.

Lemma find_app_none {A : Type} (p : A → bool) (l l' : list A) :
  Forall (λ y, p y = false) l → List.find p (l ++ l') = List.find p l'.
Proof.
  induction 1 as [|y l Hy _ IH]; simpl; [done|]. by rewrite Hy.
Qed.

(** The fingerprints known to a topology are those of the molecules added,
    each reference molecule is the first molecule added with its
    fingerprint, and the instances follow the order of the calls. *)
Lemma from_molecules_dedup (ms : list Molecule) :
  length (_topology_molecules (from_molecules ms)) = length ms
  ∧ (λ tm, to_smiles (_reference_molecule tm))
      <$> _topology_molecules (from_molecules ms)
    = to_smiles <$> ms
  ∧ Forall (λ r, List.find (λ m', String.eqb (to_smiles r) (to_smiles m')) ms
                 = Some r)
           (Topology.reference_molecules (from_molecules ms))
  ∧ (∀ s, s ∈ to_smiles <$> Topology.reference_molecules (from_molecules ms)
          ↔ s ∈ to_smiles <$> ms)
  ∧ (length (Topology.reference_molecules (from_molecules ms)) <= length ms)%nat.
Proof.
  induction ms as [|m ms IH] using rev_ind.
  - repeat split; try done; simpl; by constructor.
  - destruct IH as (Hlen & Hsm & Hfirst & Hset & Hle).
    rewrite from_molecules_snoc.
    destruct (add_molecule_shape (from_molecules ms) m)
      as (r & refs & -> & Hr & Hkeys).
    cbn [fst]. unfold Topology.reference_molecules at 1 2 3. simpl.
    rewrite !length_app, !fmap_app, Hlen, Hsm. simpl. rewrite Hr.
    split; [done|]. split; [done|].
    destruct Hkeys as [[-> Hin]|(-> & -> & Hall)].
    + split; [|split].
      * eapply Forall_impl; [exact Hfirst|]. intros r0 Hr0. simpl in Hr0.
        by apply find_app_first.
      * intros s. rewrite Hset, elem_of_app, list_elem_of_singleton.
        split; [by left|]. intros [?| ->]; [done|].
        apply Hset. rewrite <- Hr. by apply list_elem_of_fmap_2.
      * lia.
    + split; [|split].
      * apply Forall_app. split.
        -- eapply Forall_impl; [exact Hfirst|]. intros r0 Hr0. simpl in Hr0.
           by apply find_app_first.
        -- repeat constructor. rewrite find_app_none.
           ++ simpl. by rewrite String.eqb_refl.
           ++ apply Forall_forall. intros m' Hm'. apply String.eqb_neq.
              intros Heq.
              assert (Hs : to_smiles m ∈ to_smiles <$> ms).
              { rewrite Heq. by apply list_elem_of_fmap_2. }
              apply Hset in Hs. apply list_elem_of_fmap in Hs as (k & Hk & Hkin).
              rewrite Forall_forall in Hall. by apply (Hall k Hkin).
      * intros s. rewrite fmap_app, !elem_of_app, Hset. simpl.
        by rewrite !list_elem_of_singleton.
      * rewrite length_app. simpl. lia.
Qed.

(** X9: after adding the molecules [ms] to a fresh topology there is one
    instance per call, in call order, each referring to the first molecule
    added with its fingerprint; the reference molecules have pairwise
    distinct fingerprints, which are exactly the fingerprints of the
    molecules added, and there are at most as many of them as instances. *)
Theorem from_molecules_deduplicates (ms : list Molecule) :
  Topology.n_molecules (from_molecules ms) = Z.of_nat (length ms)
  ∧ (λ tm, to_smiles (_reference_molecule tm))
      <$> Topology.topology_molecules (from_molecules ms)
    = to_smiles <$> ms
  ∧ Forall (λ tm,
              List.find (λ m', String.eqb (to_smiles (_reference_molecule tm))
                                          (to_smiles m')) ms
              = Some (_reference_molecule tm))
           (Topology.topology_molecules (from_molecules ms))
  ∧ NoDup (to_smiles <$> Topology.reference_molecules (from_molecules ms))
  ∧ (∀ s, s ∈ to_smiles <$> Topology.reference_molecules (from_molecules ms)
          ↔ s ∈ to_smiles <$> ms)
  ∧ Topology.n_reference_molecules (from_molecules ms)
    <= Topology.n_molecules (from_molecules ms).
Proof.
  destruct (from_molecules_dedup ms) as (Hlen & Hsm & Hfirst & Hset & Hle).
  pose proof (from_molecules_inv (Quantity:=Quantity) ms)
    as [_ _ Hkeys Hrefs _ _].
  unfold Topology.n_molecules, Topology.topology_molecules. rewrite Hlen.
  repeat split; try done.
  - eapply Forall_impl; [exact Hrefs|]. intros tm Htm. simpl in Htm.
    rewrite Forall_forall in Hfirst. by apply Hfirst.
  - by apply Hset.
  - by apply Hset.
  - unfold Topology.n_reference_molecules.
    assert (Hcount : ∀ (l : list Molecule) (acc : Z),
               fold_left (λ count _, count + 1) l acc
               = acc + Z.of_nat (length l)).
    { induction l as [|x l IHl]; intros acc; simpl; [lia|].
      rewrite IHl. lia. }
    rewrite Hcount. lia.
Qed.
End MoreAddMolecule.

(** * Further properties of the constraints *)
Section MoreConstraints.
Context {Quantity : Type}.
Implicit Types (T : Topology Quantity) (i j a b : Z).

Lemma add_constraint_keeps_symmetry T i j (d : distance Quantity) :
  (∀ a b, _constrained_atom_pairs T !! (a, b)
          = _constrained_atom_pairs T !! (b, a)) →
  ∀ a b, _constrained_atom_pairs (Topology.add_constraint T i j d).1 !! (a, b)
         = _constrained_atom_pairs (Topology.add_constraint T i j d).1 !! (b, a).
Proof.
  intros Hsym a b.
  assert (Hstore :
    <[(j, i) := d]> (<[(i, j) := d]> (_constrained_atom_pairs T)) !! (a, b)
    = <[(j, i) := d]> (<[(i, j) := d]> (_constrained_atom_pairs T)) !! (b, a)).
  { rewrite !lookup_insert.
    repeat case_decide; simplify_eq; try done; apply Hsym. }
  unfold Topology.add_constraint.
  destruct (_constrained_atom_pairs T !! (i, j)) as [existing|] eqn:Hex;
    [|exact Hstore].
  destruct (Topology.is_quantity existing && Topology.is_True d); [apply Hsym|].
  destruct (Topology.is_True existing && Topology.is_True d); [apply Hsym|].
  destruct (Topology.is_False d); [|exact Hstore].
  destruct (delete (i, j) (_constrained_atom_pairs T) !! (j, i)) eqn:Hji; simpl.
  - rewrite !lookup_delete.
    repeat case_decide; simplify_eq; try done; apply Hsym.
  - rewrite !lookup_delete. rewrite lookup_delete in Hji.
    repeat case_decide; simplify_eq; try done;
      first [apply Hsym | by rewrite <- Hsym | by rewrite Hsym].
Qed.

Lemma add_constraints_symmetric (calls : list (Z * Z * distance Quantity)) a b :
  _constrained_atom_pairs (add_constraints (@Topology.__init__ Quantity) calls)
    !! (a, b)
  = _constrained_atom_pairs (add_constraints (@Topology.__init__ Quantity) calls)
      !! (b, a).
Proof.
  revert a b. unfold add_constraints.
  induction calls as [|call calls IH] using rev_ind; intros a b; [done|].
  rewrite fold_left_app. simpl. by apply add_constraint_keeps_symmetry.
Qed.

(** X10: whatever calls of [add_constraint] were made on a fresh topology,
    raising or not, [is_constrained] answers the same for a pair in either
    direction. *)
Theorem is_constrained_symmetric (calls : list (Z * Z * distance Quantity)) a b :
  Topology.is_constrained
    (add_constraints (@Topology.__init__ Quantity) calls) a b
  = Topology.is_constrained
      (add_constraints (@Topology.__init__ Quantity) calls) b a.
Proof.
  unfold Topology.is_constrained. by rewrite add_constraints_symmetric.
Qed.

(** X11: on a topology reached by [add_constraint] calls, a call raises
    [KeyError] exactly when it removes ([distance=False]) a recorded
    constraint of an atom with itself; the entry is gone all the same. For
    two different atoms a removal never raises. *)
Theorem add_constraint_KeyError (calls : list (Z * Z * distance Quantity))
    i j (d : distance Quantity) :
  ((Topology.add_constraint
      (add_constraints (@Topology.__init__ Quantity) calls) i j d).2
   = Raise KeyError
   ↔ d = PyFalse ∧ i = j
     ∧ is_Some (_constrained_atom_pairs
                  (add_constraints (@Topology.__init__ Quantity) calls)
                  !! (i, j)))
  ∧ ((Topology.add_constraint
        (add_constraints (@Topology.__init__ Quantity) calls) i j d).2
     = Raise KeyError →
     _constrained_atom_pairs
       (Topology.add_constraint
          (add_constraints (@Topology.__init__ Quantity) calls) i j d).1
       !! (i, j) = None)
  ∧ (i ≠ j →
     (Topology.add_constraint
        (add_constraints (@Topology.__init__ Quantity) calls) i j PyFalse).2
     = Ok ()).
Proof.
  pose proof (add_constraints_symmetric calls) as Hsym.
  set (T := add_constraints (@Topology.__init__ Quantity) calls) in *.
  assert (Hchar :
    (Topology.add_constraint T i j d).2 = Raise KeyError
    ↔ d = PyFalse ∧ i = j ∧ is_Some (_constrained_atom_pairs T !! (i, j))).
  { unfold Topology.add_constraint.
    destruct (_constrained_atom_pairs T !! (i, j)) as [existing|] eqn:Hex.
    - destruct d as [| |q]; simpl.
      + destruct existing; simpl; split; try done; by intros (? & _).
      + rewrite !andb_false_r.
        destruct (delete (i, j) (_constrained_atom_pairs T) !! (j, i)) eqn:Hji;
          simpl.
        * split; [done|]. intros (_ & -> & _).
          by rewrite lookup_delete_eq in Hji.
        * split; [intros _|done]. split; [done|]. split; [|by eexists].
          destruct (decide (i = j)) as [|Hne]; [done|].
          rewrite lookup_delete_ne, <- Hsym, Hex in Hji by congruence. done.
      + rewrite !andb_false_r. simpl. split; [done|]. by intros (? & _).
    - simpl. split; [done|]. intros (_ & _ & [? ?]). done. }
  split; [exact Hchar|]. split.
  - intros Herr. apply Hchar in Herr as (-> & -> & [existing Hex]).
    unfold Topology.add_constraint. rewrite Hex. rewrite !andb_false_r. simpl.
    rewrite lookup_delete_eq. simpl. by rewrite lookup_delete_eq.
  - intros Hne.
    destruct ((Topology.add_constraint T i j PyFalse).2) as [[]|e] eqn:Hout;
      [done|].
    exfalso. unfold Topology.add_constraint in Hout.
    destruct (_constrained_atom_pairs T !! (i, j)) as [existing|] eqn:Hex;
      [|done].
    rewrite !andb_false_r in Hout. simpl in Hout.
    rewrite lookup_delete_ne, <- Hsym, Hex in Hout by congruence. done.
Qed.

(** X12: a call of [add_constraint] changes nothing but the two entries of
    its pair: [is_constrained] of every other pair is as before, and the
    molecules and counters of the topology are not touched. *)
Theorem add_constraint_frame T i j (d : distance Quantity) a b :
  (a, b) ≠ (i, j) → (a, b) ≠ (j, i) →
  Topology.is_constrained (Topology.add_constraint T i j d).1 a b
  = Topology.is_constrained T a b
  ∧ _topology_molecules (Topology.add_constraint T i j d).1
    = _topology_molecules T
  ∧ _reference_molecule_to_topology_molecules (Topology.add_constraint T i j d).1
    = _reference_molecule_to_topology_molecules T
  ∧ Topology.n_atoms (Topology.add_constraint T i j d).1 = Topology.n_atoms T
  ∧ Topology.n_molecules (Topology.add_constraint T i j d).1
    = Topology.n_molecules T.
Proof.
  intros H1 H2. unfold Topology.add_constraint, Topology.is_constrained.
  destruct (_constrained_atom_pairs T !! (i, j)) as [existing|] eqn:Hex.
  - destruct (Topology.is_quantity existing && Topology.is_True d); [done|].
    destruct (Topology.is_True existing && Topology.is_True d); [done|].
    destruct (Topology.is_False d).
    + destruct (delete (i, j) (_constrained_atom_pairs T) !! (j, i)); simpl;
        by rewrite ?lookup_delete_ne.
    + simpl. by rewrite !lookup_insert_ne.
  - simpl. by rewrite !lookup_insert_ne.
Qed.
End MoreConstraints.

(** * Further properties of the matching *)
Section MoreMatching.
Context {Quantity : Type}.
Variable matches : Molecule → string → list (list Z).
Local Abbreviation from_molecules := (@Topology.from_molecules Quantity).

Lemma elem_of_concat {A : Type} (x : A) (ls : list (list A)) :
  x ∈ concat ls ↔ ∃ l, l ∈ ls ∧ x ∈ l.
Proof.
  rewrite list_elem_of_In, in_concat. split.
  - intros (l & Hl & Hx). exists l. by rewrite !list_elem_of_In.
  - intros (l & Hl & Hx). exists l. by rewrite <- !list_elem_of_In.
Qed.

Lemma length_unrolled {A B C : Type} (f : A → B → C) (M : list A) (I : list B) :
  Z.of_nat (length (concat ((λ rm, f rm <$> I) <$> M)))
  = Z.of_nat (length M) * Z.of_nat (length I).
Proof.
  induction M as [|rm M IH]; [simpl; lia|].
  rewrite fmap_cons. cbn [concat length].
  rewrite length_app, length_fmap, Nat2Z.inj_add, IH. lia.
Qed.

Lemma length_expected (T : Topology Quantity) (smarts : string)
    (refs : list Molecule) :
  Z.of_nat
    (length
       (concat
          ((λ ref_mol,
              concat
                ((λ reference_match : list Z,
                    (λ instance, view_of instance <$> reference_match)
                      <$> instances_of T ref_mol)
                   <$> matches ref_mol smarts))
             <$> refs)))
  = foldr (λ ref_mol total,
             Z.of_nat (length (matches ref_mol smarts))
             * Z.of_nat (length (instances_of T ref_mol)) + total)
          0 refs.
Proof.
  induction refs as [|ref_mol refs IH]; [done|].
  rewrite fmap_cons. cbn [concat foldr].
  rewrite length_app, Nat2Z.inj_add, IH.
  by rewrite (length_unrolled (λ rm instance, view_of instance <$> rm)).
Qed.

(** X13: for a pattern query and matches that are atoms of their reference
    molecule, the number of tuples returned is the sum over the reference
    molecules of (number of matches) * (number of instances); every tuple
    has as many entries as its match has indices, and no entry is
    [None]. *)
Theorem chemical_environment_matches_count (q : query) (smarts : string)
    (ms : list Molecule) :
  q = QueryStr smarts ∨ q = QueryChemicalEnvironment {| as_smarts := smarts |} →
  Forall (λ ref_mol,
            Forall (Forall (λ i, 0 <= i < Molecule.n_atoms ref_mol))
                   (matches ref_mol smarts))
         (Topology.reference_molecules (from_molecules ms)) →
  ∃ res,
    Topology.chemical_environment_matches matches (from_molecules ms) q = Ok res
    ∧ Z.of_nat (length res)
      = foldr (λ ref_mol total,
                 Z.of_nat (length (matches ref_mol smarts))
                 * Z.of_nat (length (instances_of (from_molecules ms) ref_mol))
                 + total)
              0 (Topology.reference_molecules (from_molecules ms))
    ∧ Forall (λ tuple : list (option TopologyAtom),
                Forall is_Some tuple
                ∧ ∃ ref_mol reference_match,
                    ref_mol ∈ Topology.reference_molecules (from_molecules ms)
                    ∧ reference_match ∈ matches ref_mol smarts
                    ∧ length tuple = length reference_match)
             res.
Proof.
  intros Hq Hvalid.
  pose proof (from_molecules_inv (Quantity:=Quantity) ms) as HT.
  exists (expected_matches matches (from_molecules ms) smarts).
  split; [by apply chemical_environment_matches_expected|].
  split; [apply length_expected|].
  apply Forall_forall. intros tuple Htuple. unfold expected_matches in Htuple.
  apply elem_of_concat in Htuple as (per_ref & Hper_ref & Htuple).
  apply list_elem_of_fmap in Hper_ref as (ref_mol & -> & Hkey).
  apply elem_of_concat in Htuple as (per_match & Hper_match & Htuple).
  apply list_elem_of_fmap in Hper_match as (rm & -> & Hrm).
  apply list_elem_of_fmap in Htuple as (tm & -> & Htm).
  rewrite Forall_forall in Hvalid. specialize (Hvalid _ Hkey).
  rewrite Forall_forall in Hvalid. specialize (Hvalid _ Hrm).
  split.
  - destruct (expected_view_indices _ ref_mol rm tm HT Hkey Htm Hvalid)
      as (start & _ & Hviews).
    apply Forall_fmap. eapply Forall_impl; [exact Hviews|].
    intros i (a & Ha & _). simpl. rewrite Ha. by eexists.
  - exists ref_mol, rm. by rewrite length_fmap.
Qed.
End MoreMatching.

(** * Further properties of the import from OpenMM *)
Section MoreFromOpenMM.
Context {Quantity : Type}.
Variable connected_component_subgraphs : Graph → list Graph.
Variable is_isomorphic : Graph → Graph → bool → bool.
Local Abbreviation from_molecules := (@Topology.from_molecules Quantity).

Lemma convert_unique_mols_listing (unique_molecules : list Molecule)
    (graph_to_unq_mol : list (Graph * Molecule)) (next_graph_id : nat) :
  Forall (λ e, (graph_id e.1 < next_graph_id)%nat) graph_to_unq_mol →
  Topology.convert_unique_mols graph_is unique_molecules graph_to_unq_mol
    next_graph_id
  = Ok (graph_to_unq_mol
          ++ imap (λ i unq_mol,
                     (to_networkx unq_mol (next_graph_id + 2 * i + 1), unq_mol))
                  unique_molecules).
Proof.
  revert graph_to_unq_mol next_graph_id.
  induction unique_molecules as [|unq_mol rest IH]; intros d next Hd.
  - simpl. by rewrite app_nil_r.
  - cbn [Topology.convert_unique_mols]. cbv zeta.
    rewrite new_graph_is_no_key by done.
    rewrite (od_set_fresh graph_is d).
    + rewrite IH.
      * rewrite <- app_assoc. cbn [imap app].
        replace (next + 2 * 0 + 1)%nat with (S next) by lia.
        do 3 f_equal. apply imap_ext. intros i m _. simpl.
        by replace (S (S (next + (i + (i + 0)) + 1)))%nat
          with (next + S (i + S (i + 0)) + 1)%nat by lia.
      * apply Forall_app. split.
        -- eapply Forall_impl; [exact Hd|]. simpl. intros; lia.
        -- apply Forall_cons. split; [simpl; lia|constructor].
    + eapply Forall_impl; [exact Hd|]. intros e He. unfold graph_is. simpl in *.
      apply Nat.eqb_neq. lia.
Qed.

Lemma match_components_chosen (topology : Topology Quantity)
    (graph_to_unq_mol : list (Graph * Molecule)) (has_bond_orders : bool)
    (components : list Graph) :
  Topology.match_components is_isomorphic topology graph_to_unq_mol
    has_bond_orders components
  = match mapM (λ omm_mol_G,
                  snd <$> List.find
                            (λ entry : Graph * Molecule,
                               is_isomorphic entry.1 omm_mol_G has_bond_orders)
                            graph_to_unq_mol)
               components with
    | Some chosen =>
        Ok (fold_left
              (λ topology molecule, (Topology.add_molecule topology molecule).1)
              chosen topology)
    | None => Raise (Exception no_match_found)
    end.
Proof.
  revert topology. induction components as [|G rest IH]; intros topology.
  - done.
  - cbn [Topology.match_components mapM].
    destruct (List.find _ graph_to_unq_mol) as [entry|]; [|done].
    simpl. rewrite IH.
    by destruct (mapM _ rest).
Qed.

Lemma has_bond_orders_fold (bonds : list (Z * Z * option Z)) (acc : bool) :
  fold_left (λ has_orders (omm_bond : Z * Z * option Z),
               match omm_bond.2 with
               | None => false
               | Some _ => has_orders
               end) bonds acc
  = acc && forallb (λ omm_bond : Z * Z * option Z,
                      match omm_bond.2 with
                      | None => false
                      | Some _ => true
                      end) bonds.
Proof.
  revert acc. induction bonds as [|b bonds IH]; intros acc; simpl.
  - by rewrite andb_true_r.
  - rewrite IH. destruct (b.2); simpl; [done|]. by rewrite andb_false_r.
Qed.

(** X14: without [unique_molecules] the import raises [TypeError].
    Otherwise every candidate gets its own graph, in the order supplied;
    bond orders are compared only if every OpenMM bond has one; each
    connected component adds the first candidate isomorphic to it, so the
    import is [from_molecules] of the chosen candidates, and it raises "No
    match found" exactly when some component matches no candidate. On
    success there are as many instances as components. *)
Theorem from_openmm_adds_first_matching_candidates
    (openmm_topology : OpenMMTopology) (unique_molecules : list Molecule)
    (topology : Topology Quantity) :
  Topology.from_openmm graph_is connected_component_subgraphs is_isomorphic
    openmm_topology None
  = @Raise (Topology Quantity) TypeError
  ∧ Topology.from_openmm graph_is connected_component_subgraphs is_isomorphic
      openmm_topology (Some unique_molecules)
    = match mapM (λ omm_mol_G,
                    snd <$> List.find
                              (λ entry : Graph * Molecule,
                                 is_isomorphic entry.1 omm_mol_G
                                   (forallb (λ omm_bond : Z * Z * option Z,
                                               match omm_bond.2 with
                                               | None => false
                                               | Some _ => true
                                               end)
                                            (omm_bonds openmm_topology)))
                              (imap (λ i unq_mol,
                                       (to_networkx unq_mol (2 * i + 1), unq_mol))
                                    unique_molecules))
                 (connected_component_subgraphs
                    {| graph_id := 2 * length unique_molecules;
                       graph_nodes := omm_atoms openmm_topology;
                       graph_edges := omm_bonds openmm_topology |}) with
      | Some chosen => Ok (from_molecules chosen)
      | None => Raise (Exception no_match_found)
      end
  ∧ (Topology.from_openmm graph_is connected_component_subgraphs is_isomorphic
       openmm_topology (Some unique_molecules) = Ok topology →
     Topology.n_molecules topology
     = Z.of_nat
         (length
            (connected_component_subgraphs
               {| graph_id := 2 * length unique_molecules;
                  graph_nodes := omm_atoms openmm_topology;
                  graph_edges := omm_bonds openmm_topology |}))).
Proof.
  assert (Heq :
    Topology.from_openmm graph_is connected_component_subgraphs is_isomorphic
      openmm_topology (Some unique_molecules)
    = match mapM (λ omm_mol_G,
                    snd <$> List.find
                              (λ entry : Graph * Molecule,
                                 is_isomorphic entry.1 omm_mol_G
                                   (forallb (λ omm_bond : Z * Z * option Z,
                                               match omm_bond.2 with
                                               | None => false
                                               | Some _ => true
                                               end)
                                            (omm_bonds openmm_topology)))
                              (imap (λ i unq_mol,
                                       (to_networkx unq_mol (2 * i + 1), unq_mol))
                                    unique_molecules))
                 (connected_component_subgraphs
                    {| graph_id := 2 * length unique_molecules;
                       graph_nodes := omm_atoms openmm_topology;
                       graph_edges := omm_bonds openmm_topology |}) with
      | Some chosen => Ok (from_molecules chosen)
      | None => Raise (Exception no_match_found)
      end).
  { unfold Topology.from_openmm. cbv zeta.
    rewrite bind_Ok, convert_unique_mols_listing by constructor.
    rewrite bind_Ok, match_components_chosen, has_bond_orders_fold.
    rewrite app_nil_l, andb_true_l. reflexivity. }
  split; [done|]. split; [exact Heq|].
  rewrite Heq. intros Hok.
  destruct (mapM _ _) as [chosen|] eqn:Hchosen; [|done].
  injection Hok as <-. apply length_mapM in Hchosen.
  destruct (from_molecules_deduplicates (Quantity:=Quantity) chosen) as [-> _].
  by rewrite Hchosen.
Qed.
End MoreFromOpenMM.

(** * Bonded atoms *)
Section Bonded.
Context {Quantity : Type}.
Implicit Types (T : Topology Quantity) (tm : TopologyMolecule) (b : Bond).
Local Abbreviation from_molecules := (@Topology.from_molecules Quantity).






End Bonded.

Section BondedInTopology.
Context {Quantity : Type}.
Local Abbreviation from_molecules := (@Topology.from_molecules Quantity).




End BondedInTopology.

Section BondAtoms.
Context {Quantity : Type}.
Local Abbreviation from_molecules := (@Topology.from_molecules Quantity).



End BondAtoms.

(** * The further properties at example inputs *)

Ltac forall_by_computation :=
  repeat first [apply Forall_nil | apply Forall_cons; split];
  repeat split; by vm_compute.

Lemma bond_and_virtual_site_index_roundtrip_witness :
  (∃ b, Topology.bond (@Topology.from_molecules Z [water; ethanol; water]) 3
        = Ok (Some b)
        ∧ TopologyBond.topology_bond_index
            (@Topology.from_molecules Z [water; ethanol; water]) b = Ok 3)
  ∧ (∃ v, Topology.virtual_site
            (@Topology.from_molecules Z [water; ethanol; water]) 1
          = Ok (Some v)
          ∧ TopologyVirtualSite.topology_virtual_site_index
              (@Topology.from_molecules Z [water; ethanol; water]) v = Ok 1).
Proof.
  destruct (bond_and_virtual_site_index_roundtrip (Quantity:=Z)
              [water; ethanol; water] 3) as [Hb _].
  destruct (bond_and_virtual_site_index_roundtrip (Quantity:=Z)
              [water; ethanol; water] 1) as [_ Hv].
  split; [apply Hb|apply Hv]; split; by vm_compute.
Defined.


Lemma start_index_is_sum_of_preceding_witness :
  TopologyMolecule.atom_start_topology_index
    (@Topology.from_molecules Z [water; ethanol; water])
    {| tm_id := 2; _reference_molecule := water |}
  = Some (sum_over_instances TopologyMolecule.n_atoms
            (take 2 (_topology_molecules
                       (@Topology.from_molecules Z [water; ethanol; water]))))
  ∧ TopologyAtom.topology_atom_index
      (@Topology.from_molecules Z [water; ethanol; water])
      {| _atom := {| atomic_number := 8; molecule_atom_index := 0 |};
         ta_topology_molecule := {| tm_id := 7; _reference_molecule := water |} |}
    = Raise TypeError.
Proof.
  destruct (start_index_is_sum_of_preceding (Quantity:=Z)
              [water; ethanol; water] 2
              {| tm_id := 2; _reference_molecule := water |}
              {| tm_id := 7; _reference_molecule := water |}
              {| atomic_number := 8; molecule_atom_index := 0 |})
    as [Hin Hout].
  split.
  - exact (proj1 (Hin eq_refl)).
  - apply Hout. vm_compute. intros Hin'.
    repeat (apply elem_of_cons in Hin' as [Hin'|Hin']; [discriminate|]).
    by apply elem_of_nil in Hin'.
Defined.

Lemma add_molecule_appends_witness :
  Topology.atom (@Topology.from_molecules Z ([water; ethanol] ++ [water])) 4
  = Topology.atom (@Topology.from_molecules Z [water; ethanol]) 4
  ∧ Topology.is_constrained
      (Topology.add_molecule constrained_at_distance water).1 0 1
    = Topology.is_constrained constrained_at_distance 0 1.
Proof.
  destruct (add_molecule_appends (Quantity:=Z) [water; ethanol] water)
    as (_ & _ & _ & _ & Hstable & Hkept & _).
  split.
  - apply Hstable. split; by vm_compute.
  - apply (Hkept constrained_at_distance 0 1).
Defined.

Lemma add_constraint_KeyError_witness :
  (Topology.add_constraint
     (add_constraints (@Topology.__init__ Z) [(0, 1, PyTrue); (2, 2, PyTrue)])
     0 1 PyFalse).2
  = Ok ()
  ∧ (Topology.add_constraint
       (add_constraints (@Topology.__init__ Z) [(0, 1, PyTrue); (2, 2, PyTrue)])
       2 2 PyFalse).2
    = Raise KeyError.
Proof.
  destruct (add_constraint_KeyError (Quantity:=Z)
              [(0, 1, PyTrue); (2, 2, PyTrue)] 0 1 PyFalse) as (_ & _ & Hne).
  destruct (add_constraint_KeyError (Quantity:=Z)
              [(0, 1, PyTrue); (2, 2, PyTrue)] 2 2 PyFalse) as ([_ Hiff] & _).
  split.
  - apply Hne. discriminate.
  - apply Hiff. split; [done|]. split; [done|]. by eexists.
Defined.

Lemma add_constraint_frame_witness :
  Topology.is_constrained
    (Topology.add_constraint
       (add_constraints (@Topology.__init__ Z) [(0, 1, PyQuantity 3)])
       1 2 PyTrue).1 0 1
  = Topology.is_constrained
      (add_constraints (@Topology.__init__ Z) [(0, 1, PyQuantity 3)]) 0 1.
Proof.
  apply (add_constraint_frame
           (add_constraints (@Topology.__init__ Z) [(0, 1, PyQuantity 3)])
           1 2 PyTrue 0 1); discriminate.
Defined.

Lemma chemical_environment_matches_count_witness :
  ∃ res,
    Topology.chemical_environment_matches first_two_atoms
      (@Topology.from_molecules Z [water; ethanol; water]) (QueryStr "[*:1]~[*:2]")
    = Ok res
    ∧ Z.of_nat (length res) = 6.
Proof.
  destruct (chemical_environment_matches_count (Quantity:=Z) first_two_atoms
              (QueryStr "[*:1]~[*:2]") "[*:1]~[*:2]" [water; ethanol; water]
              (or_introl eq_refl))
    as (res & Hres & Hlen & _).
  - change (Topology.reference_molecules
              (@Topology.from_molecules Z [water; ethanol; water]))
      with [water; ethanol].
    forall_by_computation.
  - exists res. split; [exact Hres|]. rewrite Hlen. reflexivity.
Defined.

Lemma from_openmm_adds_first_matching_candidates_witness :
  Topology.from_openmm graph_is one_component same_listing
    {| omm_atoms := [(0, 8); (1, 1); (2, 1)];
       omm_bonds := [(0, 1, Some 1); (0, 2, Some 1)] |}
    (Some [ethanol; water])
  = Ok (@Topology.from_molecules Z [water])
  ∧ Topology.n_molecules (@Topology.from_molecules Z [water]) = 1.
Proof.
  assert (H : Topology.from_openmm graph_is one_component same_listing
                {| omm_atoms := [(0, 8); (1, 1); (2, 1)];
                   omm_bonds := [(0, 1, Some 1); (0, 2, Some 1)] |}
                (Some [ethanol; water])
              = Ok (@Topology.from_molecules Z [water])) by reflexivity.
  split; [exact H|].
  destruct (from_openmm_adds_first_matching_candidates (Quantity:=Z)
              one_component same_listing
              {| omm_atoms := [(0, 8); (1, 1); (2, 1)];
                 omm_bonds := [(0, 1, Some 1); (0, 2, Some 1)] |}
              [ethanol; water] (@Topology.from_molecules Z [water]))
    as (_ & _ & Hn).
  exact (Hn H).
Defined.



(** * Local lookups *)

Lemma py_getitem_from_end {A : Type} (l : list A) (i : Z) :
  - Z.of_nat (length l) <= i < 0 →
  py_getitem l i = py_getitem l (i + Z.of_nat (length l)).
Proof.
  intros Hi. unfold py_getitem. cbv zeta.
  assert (E1 : (i <? 0) = true) by (apply Z.ltb_lt; lia).
  assert (E2 : (i + Z.of_nat (length l) <? 0) = false) by (apply Z.ltb_ge; lia).
  by rewrite E1, !E2.
Qed.

Lemma py_getitem_outside {A : Type} (l : list A) (i : Z) :
  i < - Z.of_nat (length l) ∨ Z.of_nat (length l) <= i →
  py_getitem l i = Raise IndexError.
Proof.
  intros Hi. unfold py_getitem. cbv zeta.
  destruct Hi as [Hi|Hi].
  - assert (E1 : (i <? 0) = true) by (apply Z.ltb_lt; lia).
    assert (E2 : (i + Z.of_nat (length l) <? 0) = true)
      by (apply Z.ltb_lt; lia).
    by rewrite E1, E2.
  - assert (E1 : (i <? 0) = false) by (apply Z.ltb_ge; lia).
    assert (E2 : (Z.of_nat (length l) <=? i) = true) by (apply Z.leb_le; lia).
    by rewrite !E1, E2.
Qed.

(** X17: [TopologyMolecule.atom(index)] returns the view of this instance at
    local index [index] when [0 <= index < n_atoms]; a negative index down
    to [-n_atoms] counts from the end, as Python sequences do, and gives
    the view at [n_atoms + index]; any other index raises [IndexError]. *)
Theorem topology_molecule_atom_local_index (tm : TopologyMolecule) (index : Z) :
  (0 <= index < TopologyMolecule.n_atoms tm →
   ∃ a, TopologyMolecule.atom tm index = Ok a
        ∧ ta_topology_molecule a = tm
        ∧ molecule_atom_index (_atom a) = index)
  ∧ (- TopologyMolecule.n_atoms tm <= index < 0 →
     ∃ a, TopologyMolecule.atom tm index = Ok a
          ∧ ta_topology_molecule a = tm
          ∧ molecule_atom_index (_atom a)
            = TopologyMolecule.n_atoms tm + index)
  ∧ (index < - TopologyMolecule.n_atoms tm
     ∨ TopologyMolecule.n_atoms tm <= index →
     TopologyMolecule.atom tm index = Raise IndexError).
Proof.
  split; [|split].
  - intros Hi. destruct (topology_molecule_atom tm index Hi)
      as (a & _ & Ha & Htm & Hidx). by exists a.
  - intros Hi.
    destruct (topology_molecule_atom tm (index + TopologyMolecule.n_atoms tm))
      as (a & _ & Ha & Htm & Hidx); [lia|].
    exists a. split; [|split; [done|lia]].
    unfold TopologyMolecule.atom in *.
    rewrite py_getitem_from_end; [exact Ha|].
    unfold TopologyMolecule.n_atoms, Molecule.n_atoms in Hi. lia.
  - intros Hi. unfold TopologyMolecule.atom.
    rewrite py_getitem_outside; [done|].
    unfold TopologyMolecule.n_atoms, Molecule.n_atoms in Hi. lia.
Qed.

Lemma topology_molecule_atom_local_index_witness :
  (∃ a, TopologyMolecule.atom {| tm_id := 0; _reference_molecule := water |} (-1)
        = Ok a ∧ molecule_atom_index (_atom a) = 2)
  ∧ TopologyMolecule.atom {| tm_id := 0; _reference_molecule := water |} 3
    = Raise IndexError.
Proof.
  destruct (topology_molecule_atom_local_index
              {| tm_id := 0; _reference_molecule := water |} (-1))
    as (_ & Hneg & _).
  destruct (topology_molecule_atom_local_index
              {| tm_id := 0; _reference_molecule := water |} 3)
    as (_ & _ & Hout).
  split.
  - destruct Hneg as (a & Ha & _ & Hidx); [split; by vm_compute|].
    exists a. split; [exact Ha|exact Hidx].
  - apply Hout. right. by vm_compute.
Defined.
